(** * snps.py: the CYP1A2 SNP report pipeline

    A shallow embedding of [snps.py].  The script drives external
    genomics tools through the shell, reads one line of text per SNP
    position, writes a CSV report and rewrites its genotype column.

    Modelling choices:
    - a Python [str] is a list of Unicode code points ([N]);
    - the working directory is a finite map from file names to text;
    - [snp_report.csv] is only ever touched through the [csv] module and
      is kept as the list of rows that [csv.writer] wrote and
      [csv.reader] yields; quoting on disk and the module's limit on
      the size of a field are below this level;
    - external programs are an oracle ([world]) giving, for a command
      line, its exit status and what it prints on standard output;
      [grep -v '^#'] is modelled by what it does on text;
    - Python code runs in a state-and-exception monad [M]. *)

From Stdlib Require Import String Ascii NArith ZArith.
From stdpp Require Import base option list gmap.

Local Open Scope N_scope.

(** ** Python text *)

Abbreviation char := N (only parsing).
Abbreviation str := (list N) (only parsing).

(** A literal: the code points of an ASCII string. *)
Definition py (s : string) : str :=
  N_of_ascii <$> list_ascii_of_string s.

Definition TAB : char := 9.
Definition LF : char := 10.
Definition CR : char := 13.
Definition COLON : char := 58.
Definition HASH : char := 35.

(** [str.isspace] on one code point. *)
Definition isspace (c : char) : bool :=
  ((9 <=? c) && (c <=? 13)) || ((28 <=? c) && (c <=? 32))
  || (c =? 133) || (c =? 160) || (c =? 5760)
  || ((8192 <=? c) && (c <=? 8202))
  || (c =? 8232) || (c =? 8233) || (c =? 8239) || (c =? 8287)
  || (c =? 12288).

Fixpoint lstrip (s : str) : str :=
  match s with
  | [] => []
  | c :: s' => if isspace c then lstrip s' else s
  end.

Definition rstrip (s : str) : str := reverse (lstrip (reverse s)).

(** [s.strip()] *)
Definition strip (s : str) : str := rstrip (lstrip s).

(** [s.split(sep)] for a separator of one character. *)
Fixpoint split (sep : char) (s : str) : list str :=
  match s with
  | [] => [[]]
  | c :: s' =>
      if c =? sep then [] :: split sep s'
      else match split sep s' with
           | f :: fs => (c :: f) :: fs
           | [] => [[c]]
           end
  end.

(** Text mode with [newline=None]: ["\r\n"] and ["\r"] are read as ["\n"]. *)
Fixpoint universal_newlines (s : str) : str :=
  match s with
  | [] => []
  | c :: s' =>
      if c =? CR then
        match s' with
        | d :: s'' => if d =? LF then LF :: universal_newlines s''
                      else LF :: universal_newlines s'
        | [] => [LF]
        end
      else c :: universal_newlines s'
  end.

(** [f.readline()] at the start of a file: through the first ["\n"]. *)
Fixpoint readline (s : str) : str :=
  match s with
  | [] => []
  | c :: s' => if c =? LF then [c] else c :: readline s'
  end.

(** UTF-8 size of a text, as [os.path.getsize] sees it. *)
Definition utf8_width (c : char) : N :=
  if c <? 128 then 1 else if c <? 2048 then 2 else if c <? 65536 then 3 else 4.

Definition utf8_size (s : str) : N :=
  foldr (fun c n => utf8_width c + n) 0 s.

(** ** grep -v '^#' *)

(** The lines of a text as grep sees them: separated by ["\n"], the
    last one with or without it. *)
Fixpoint lines_from (cur : str) (s : str) : list str :=
  match s with
  | [] => match cur with [] => [] | _ => [reverse cur] end
  | c :: s' => if c =? LF then reverse cur :: lines_from [] s'
               else lines_from (c :: cur) s'
  end.

Definition lines (s : str) : list str := lines_from [] s.

Definition is_comment (l : str) : bool :=
  match l with
  | c :: _ => c =? HASH
  | [] => false
  end.

Definition unlines (ls : list str) : str :=
  concat ((fun l => l ++ [LF]) <$> ls).

(** Standard output and exit status of [grep -v '^#'] on a text.  The
    input is text: what a grep does with input that holds a NUL character
    differs between implementations and is not described here. *)
Definition grep_v_comment (s : str) : str * Z :=
  let kept := filter (fun l => is_comment l = false) (lines s) in
  (unlines kept, match kept with [] => 1%Z | _ => 0%Z end).

Local Close Scope N_scope.

(** ** The machine the script runs on *)

(** External programs: for a command line, the exit status of the
    program and the text it prints on standard output. *)
Definition world : Type := str -> Z * str.

(** The command lines the script hands to the shell. *)
Inductive command :=
| Sh (line : str) (redirect : option str)   (* line [> file] *)
| Grep (infile outfile : str).              (* grep -v '^#' infile > outfile *)

#[global] Instance command_eq_dec : EqDecision command.
Proof. solve_decision. Defined.

Definition shell_text (c : command) : str :=
  match c with
  | Sh line None => line
  | Sh line (Some out) => line ++ py " > " ++ out
  | Grep infile outfile => py "grep -v '^#' " ++ infile ++ py " > " ++ outfile
  end.

Abbreviation row := (list (list N)) (only parsing).

Record state := State {
  files : gmap (list N) (list N);   (* files of the working directory *)
  report : option (list (list (list N)));  (* snp_report.csv, as rows *)
  console : list (list N);          (* lines printed *)
  spawned : list (list N);          (* command lines run, oldest first *)
}.

Inductive exn :=
| CalledProcessError (returncode : Z) (cmd : str)
| FileNotFoundError (path : str)
| IndexError
| StopIteration.

Inductive result (A : Type) :=
| Ok (a : A)
| Raise (e : exn).
Arguments Ok {A} a.
Arguments Raise {A} e.

Definition M (A : Type) : Type := state -> result A * state.

#[global] Instance M_ret : MRet M := fun A a st => (Ok a, st).
#[global] Instance M_bind : MBind M := fun A B f m st =>
  match m st with
  | (Ok a, st') => f a st'
  | (Raise e, st') => (Raise e, st')
  end.

Definition raise {A} (e : exn) : M A := fun st => (Raise e, st).

Definition set_files (f : gmap (list N) (list N) -> gmap (list N) (list N)) : M unit :=
  fun st => (Ok (), State (f (files st)) (report st) (console st) (spawned st)).

Definition get_files : M (gmap (list N) (list N)) := fun st => (Ok (files st), st).

Definition print (s : str) : M unit :=
  fun st => (Ok (), State (files st) (report st) (console st ++ [s]) (spawned st)).

Fixpoint for_each {A} (l : list A) (body : A -> M unit) : M unit :=
  match l with
  | [] => mret ()
  | x :: l' => body x ;; for_each l' body
  end.

(** [l[i]] and [l[i] = v] on a Python list. *)
Definition getitem {A} (l : list A) (i : nat) : M A :=
  match l !! i with
  | Some x => mret x
  | None => raise IndexError
  end.

Definition setitem {A} (l : list A) (i : nat) (v : A) : M (list A) :=
  if decide (i < length l) then mret (<[i := v]> l) else raise IndexError.

(** What the shell does with a command line: the new files and the
    exit status. *)
Definition sh (w : world) (c : command) (fs : gmap (list N) (list N))
  : gmap (list N) (list N) * Z :=
  match c with
  | Sh line None => (fs, fst (w (shell_text c)))
  | Sh line (Some out) =>
      let '(code, text) := w (shell_text c) in (<[out := text]> fs, code)
  | Grep infile outfile =>
      let fs0 := <[outfile := []]> fs in
      match fs0 !! infile with
      | Some text =>
          let '(text', code) := grep_v_comment text in
          (<[outfile := text']> fs0, code)
      | None => (fs0, 2%Z)
      end
  end.

(** [subprocess.run(cmd, shell=True, check=check)] *)
Definition subprocess_run (w : world) (c : command) (check : bool) : M unit :=
  fun st =>
    let '(fs, code) := sh w c (files st) in
    let st' := State fs (report st) (console st) (spawned st ++ [shell_text c]) in
    if check && negb (code =? 0)%Z
    then (Raise (CalledProcessError code (shell_text c)), st')
    else (Ok (), st').

(** [os.path.exists], [os.remove], [os.path.getsize] *)
Definition os_path_exists (p : str) : M bool :=
  fs ← get_files; mret (bool_decide (is_Some (fs !! p))).

Definition os_remove (p : str) : M unit :=
  fs ← get_files;
  match fs !! p with
  | Some _ => set_files (delete p)
  | None => raise (FileNotFoundError p)
  end.

Definition os_path_getsize (p : str) : M N :=
  fs ← get_files;
  match fs !! p with
  | Some text => mret (utf8_size text)
  | None => raise (FileNotFoundError p)
  end.

(** [open(p, "r")]: the text of the file as Python reads it. *)
Definition open_read (p : str) : M str :=
  fs ← get_files;
  match fs !! p with
  | Some text => mret (universal_newlines text)
  | None => raise (FileNotFoundError p)
  end.

(** The csv module on [snp_report.csv].  Reading gives back the rows
    that were written; the error that [csv.reader] raises on a field
    longer than its limit (131072 characters by default) is not
    described here. *)
Definition csv_open_write : M unit :=
  fun st => (Ok (), State (files st) (Some []) (console st) (spawned st)).

Definition csv_writerow (r : row) : M unit :=
  fun st => (Ok (), State (files st) (Some (default [] (report st) ++ [r]))
                      (console st) (spawned st)).

Definition csv_writerows (rs : list row) : M unit := for_each rs csv_writerow.

Definition csv_open_read : M (list row) :=
  fun st => match report st with
            | Some rows => (Ok rows, st)
            | None => (Raise (FileNotFoundError (py "snp_report.csv")), st)
            end.

(** [next(reader)]: the first row and the rest of the iterator. *)
Definition next (reader : list row) : M (row * list row) :=
  match reader with
  | r :: reader' => mret (r, reader')
  | [] => raise StopIteration
  end.

(** ** snps.py *)

(** [run_command(command)]; with [text=True] the captured output is read
    in text mode. *)
Definition run_command (w : world) (command : str) : M str :=
  fun st =>
    let '(code, text) := w command in
    let st' := State (files st) (report st) (console st) (spawned st ++ [command]) in
    if negb (code =? 0)%Z then (Raise (CalledProcessError code command), st')
    else (Ok (strip (universal_newlines text)), st').

Record snp := Snp { id : list N; name : list N; position : list N }.

Definition snps : list snp :=
  [ Snp (py "rs762551") (py "CYP1A2*1F") (py "chr15:74749576");
    Snp (py "rs2069514") (py "CYP1A2*1C") (py "chr15:74754823");
    Snp (py "rs2472300") (py "") (py "chr15:74749234");
    Snp (py "rs2472304") (py "") (py "chr15:74751897");
    Snp (py "rs2470893") (py "") (py "chr15:74745879") ].

Definition header : row :=
  [py "SNP"; py "Position"; py "Reference"; py "Alternative"; py "Genotype";
   py "Annotation"].

Definition not_found : str := py "not found".

Definition temp_bcftools_output : str := py "temp_bcftools_output.txt".

(** Steps 1 to 6: the fixed tool invocations, all with [check=True]. *)
Definition index_cram : command := Sh (py "samtools index seq.cram") None.
Definition extract_region : command :=
  Sh (py "samtools view seq.cram chr15:74745879-74756607 -b") (Some (py "CYP1A2.bam")).
Definition index_bam : command := Sh (py "samtools index CYP1A2.bam") None.
Definition call_variants : command :=
  Sh (py "bcftools mpileup -f ../../../GRCh38.d1.vd1.fa CYP1A2.bam | "
      ++ py "bcftools call -mv -Ov -o CYP1A2_variants.vcf.gz") None.
Definition annotate : command :=
  Sh (py "java -jar /Users/matthewkinder/snpEff/snpEff.jar -v GRCh38.99 "
      ++ py "CYP1A2_variants.vcf.gz") (Some (py "CYP1A2_annotated.vcf")).
Definition compress : command :=
  Sh (py "bgzip -c CYP1A2_annotated.vcf") (Some (py "CYP1A2_annotated.vcf.gz")).
Definition index_vcf : command := Sh (py "tabix -p vcf CYP1A2_annotated.vcf.gz") None.

Definition setup_commands : list command :=
  [index_cram; extract_region; index_bam; call_variants; annotate; compress; index_vcf].

Definition setup (w : world) : M unit :=
  print (py "Indexing CRAM file...");;
  subprocess_run w index_cram true;;
  print (py "Extracting CYP1A2 region...");;
  subprocess_run w extract_region true;;
  print (py "Indexing BAM file...");;
  subprocess_run w index_bam true;;
  print (py "Calling variants...");;
  subprocess_run w call_variants true;;
  print (py "Annotating variants...");;
  subprocess_run w annotate true;;
  print (py "Compressing and indexing annotated VCF file...");;
  subprocess_run w compress true;;
  subprocess_run w index_vcf true.

(** [if os.path.exists(p): os.remove(p)] *)
Definition remove_if_exists (p : str) : M unit :=
  b ← os_path_exists p;
  if (b : bool) then os_remove p else mret ().

(** Step 7, the body of [for snp in snps]. *)
Definition bcftools_cmd (position : str) : command :=
  Sh (py "bcftools view CYP1A2_annotated.vcf.gz " ++ position)
     (Some temp_bcftools_output).

Definition temp_file_of (snp_id : str) : str := py "temp_" ++ snp_id ++ py ".txt".

Definition grep_cmd (temp_file : str) : command := Grep temp_bcftools_output temp_file.

Definition report_not_found (snp_id position : str) : M unit :=
  csv_writerow [snp_id; position; not_found; not_found; not_found; not_found];;
  print (py "  No variant found at " ++ snp_id ++ py " position").

Definition extract_snp (w : world) (s : snp) : M unit :=
  let snp_id := id s in
  let position := position s in
  let snp_name := name s in
  let description :=
    if bool_decide (snp_name = []) then snp_id
    else snp_id ++ py " (" ++ snp_name ++ py ")" in
  print (py "Checking " ++ description ++ py " at position " ++ position ++ py "...");;
  let temp_file := temp_file_of snp_id in
  subprocess_run w (bcftools_cmd position) false;;
  subprocess_run w (grep_cmd temp_file) false;;
  remove_if_exists temp_bcftools_output;;
  size ← os_path_getsize temp_file;
  if (0 <? size)%N then
    snp_file ← open_read temp_file;
    let line := strip (readline snp_file) in
    if bool_decide (line = []) then report_not_found snp_id position
    else
      let parts := split TAB line in
      if bool_decide (10 ≤ length parts) then
        field ← getitem parts 9;
        genotype ← getitem (split COLON field) 0;
        ref ← getitem parts 3;
        alt ← getitem parts 4;
        info ← getitem parts 7;
        csv_writerow [snp_id; position; ref; alt; genotype; info];;
        print (py "  Found " ++ snp_id ++ py " variant")
      else report_not_found snp_id position
  else report_not_found snp_id position.

(** Step 7 (second), removing the temporary files. *)
Definition cleanup : M unit :=
  for_each snps (fun s => remove_if_exists (temp_file_of (id s)));;
  remove_if_exists temp_bcftools_output.

(** Step 8, the loop [for row in reader] with its accumulator [rows]. *)
Definition convert_row (r : row) : M row :=
  if bool_decide (5 ≤ length r) then
    g ← getitem r 4;
    if bool_decide (g = py "0/0") then setitem r 4 (py "Homozygous Reference")
    else if bool_decide (g = py "0/1") then setitem r 4 (py "Heterozygous")
    else if bool_decide (g = py "1/1") then setitem r 4 (py "Homozygous Alternate")
    else mret r
  else mret r.

Fixpoint convert_loop (reader : list row) (rows : list row) : M (list row) :=
  match reader with
  | [] => mret rows
  | r :: reader' =>
      r' ← convert_row r;
      convert_loop reader' (rows ++ [r'])
  end.

Definition convert_genotypes : M unit :=
  reader ← csv_open_read;
  '(header, reader) ← next reader;
  rows ← convert_loop reader [];
  csv_open_write;;
  csv_writerow header;;
  csv_writerows rows.

Definition main (w : world) : M unit :=
  setup w;;
  print (py "Extracting specific SNPs of interest...");;
  csv_open_write;;
  csv_writerow header;;
  for_each snps (extract_snp w);;
  cleanup;;
  print (py "Processing report with actual alleles...");;
  convert_genotypes;;
  print (py "=== SNP Analysis Complete ===");;
  print (py "Report saved to: snp_report.csv");;
  print (py "").

(** [main] up to the end of the SNP loop (steps 1 to 7), and the rest
    of it. *)
Definition steps_1_to_7 (w : world) : M unit :=
  setup w;;
  print (py "Extracting specific SNPs of interest...");;
  csv_open_write;;
  csv_writerow header;;
  for_each snps (extract_snp w).

Definition steps_after_7 : M unit :=
  cleanup;;
  print (py "Processing report with actual alleles...");;
  convert_genotypes;;
  print (py "=== SNP Analysis Complete ===");;
  print (py "Report saved to: snp_report.csv");;
  print (py "").

(** ** What the script computes, in closed form

    These functions restate, without the monad, what one run of the code
    above produces; the lemmas of the second part prove that they agree
    with the code. *)

(** Standard output of the query for a position, and the text that
    [grep] leaves in the SNP's temporary file. *)
Definition query_output (w : world) (position : str) : str :=
  snd (w (shell_text (bcftools_cmd position))).

Definition temp_text (w : world) (position : str) : str :=
  fst (grep_v_comment (query_output w position)).

(** The line the script parses: [snp_file.readline().strip()]. *)
Definition first_line (text : str) : str :=
  strip (readline (universal_newlines text)).

Definition not_found_row (snp_id position : str) : row :=
  [snp_id; position; not_found; not_found; not_found; not_found].

Definition row_of_text (snp_id position text : str) : row :=
  if (0 <? utf8_size text)%N then
    let line := first_line text in
    let parts := split TAB line in
    if bool_decide (line = []) then not_found_row snp_id position
    else if bool_decide (10 ≤ length parts) then
      [snp_id; position; nth 3 parts []; nth 4 parts [];
       nth 0 (split COLON (nth 9 parts [])) []; nth 7 parts []]
    else not_found_row snp_id position
  else not_found_row snp_id position.

Definition snp_row (w : world) (s : snp) : row :=
  row_of_text (id s) (position s) (temp_text w (position s)).

(** The prefix of a text before the first occurrence of a character. *)
Fixpoint prefix_before (c : N) (s : list N) : list N :=
  match s with
  | [] => []
  | x :: s' => if (x =? c)%N then [] else x :: prefix_before c s'
  end.

(** The genotype mapping as the specification words it: three codes
    have a label, anything else is left as it is. *)
Definition genotype_label (g : str) : str :=
  if bool_decide (g = py "0/0") then py "Homozygous Reference"
  else if bool_decide (g = py "0/1") then py "Heterozygous"
  else if bool_decide (g = py "1/1") then py "Homozygous Alternate"
  else g.

Definition relabel (r : row) : row :=
  match r !! 4 with
  | Some g => <[4 := genotype_label g]> r
  | None => r
  end.

(** Exit status of a command. *)
Definition exit_status (w : world) (c : command) : Z := fst (w (shell_text c)).

(** A command that ends with a non-zero status, and the first setup
    command that does. *)
Definition failed (w : world) (c : command) : bool :=
  negb (exit_status w c =? 0)%Z.

Definition first_failure (w : world) : option (nat * command) :=
  list_find (fun c => failed w c) setup_commands.

(** A run of [m] from [st]: its outcome and the report it leaves. *)
Definition outcome {A} (m : M A) (st : state) : result A := fst (m st).
Definition report_after {A} (m : M A) (st : state) : option (list row) :=
  report (snd (m st)).
Definition spawned_by {A} (m : M A) (st : state) : list str :=
  drop (length (spawned st)) (spawned (snd (m st))).

(** Row [i] of the report that a run of [m] from [st] leaves (row 0 is
    the header). *)
Definition row_after {A} (m : M A) (st : state) (i : nat) : option (list (list N)) :=
  report_after m st ≫= (.!! i).

(** ** Sample runs *)

(** An empty working directory, nothing printed or run yet. *)
Definition initial : state := State ∅ None [] [].

(** Every program succeeds and prints nothing. *)
Definition silent : world := fun _ => (0%Z, []).

(** Fields joined by tabs. *)
Definition tab_join (fields : list (list N)) : list N :=
  match fields with
  | [] => []
  | f :: fs => f ++ concat ((fun x => TAB :: x) <$> fs)
  end.

(** The record [chr15 74749576 . A G 50 PASS ANN=xyz GT:DP 0/1:30]. *)
Definition record : list N :=
  tab_join [py "chr15"; py "74749576"; py "."; py "A"; py "G"; py "50"; py "PASS";
            py "ANN=xyz"; py "GT:DP"; py "0/1:30"].

Definition vcf_header : list (list N) :=
  [py "##fileformat=VCFv4.2";
   tab_join [py "#CHROM"; py "POS"; py "ID"; py "REF"; py "ALT"; py "QUAL";
             py "FILTER"; py "INFO"; py "FORMAT"; py "sample"]].

(** The query at chr15:74749576 prints a header and the record; every
    other program succeeds and prints nothing. *)
Definition one_record : world := fun cmd =>
  if bool_decide (cmd = shell_text (bcftools_cmd (py "chr15:74749576")))
  then (0%Z, unlines (vcf_header ++ [record]))
  else (0%Z, []).

(** As [one_record], with a second record after the first. *)
Definition two_records : world := fun cmd =>
  if bool_decide (cmd = shell_text (bcftools_cmd (py "chr15:74749576")))
  then (0%Z, unlines (vcf_header ++ [record])
             ++ unlines [tab_join [py "chr15"; py "74749576"; py "."; py "C"; py "T";
                                   py "9"; py "q10"; py "ANN=other"; py "GT"; py "1/1"]])
  else (0%Z, []).

(** The setup steps succeed; every other program ends with status 1
    and prints nothing. *)
Definition failing_queries : world := fun cmd =>
  if bool_decide (cmd ∈ shell_text <$> setup_commands) then (0%Z, [])
  else (1%Z, []).

(** The query at chr15:74754823 prints a line of nine fields. *)
Definition short_record : world := fun cmd =>
  if bool_decide (cmd = shell_text (bcftools_cmd (py "chr15:74754823")))
  then (0%Z, unlines [tab_join [py "chr15"; py "74754823"; py "."; py "A"; py "G";
                                py "50"; py "PASS"; py "ANN=xyz"; py "GT"]])
  else (0%Z, []).

(** Only the annotation step fails, with status 1. *)
Definition failing_annotation : world := fun cmd =>
  if bool_decide (cmd = shell_text annotate) then (1%Z, []) else (0%Z, []).





(** A report with short rows, codes and labels in several columns. *)
Definition sample_report : list (list (list N)) :=
  [ header;
    [py "rs1"; py "chr1:1"; py "A"; py "G"; py "0/0"; py "x"];
    [py "rs2"; py "chr1:2"; py "0/1"; py "1/1"; py "1/1"; py "0/0"; py "extra"];
    [py "rs3"; py "chr1:3"; py "0/1"; py "T"];
    [];
    [py "rs4"; py "chr1:4"; py "C"; py "T"; py "0|1"];
    [py "rs5"; py "chr1:5"; py "C"; py "T"; py "Heterozygous"; py "y"] ].

Definition with_report (rows : list (list (list N))) : state :=
  State ∅ (Some rows) [] [].

(** ** Notions for the further properties *)

(** A cell that holds no tab, line feed or carriage return. *)
Definition plain (cell : list N) : Prop :=
  (TAB ∉ cell) ∧ (LF ∉ cell) ∧ (CR ∉ cell).

(** The three genotype codes of the pass. *)
Definition genotype_codes : list (list N) := [py "0/0"; py "0/1"; py "1/1"].

(** The temporary files of the script. *)
Definition temp_files : list (list N) :=
  temp_bcftools_output :: (temp_file_of ∘ id <$> snps).

(** The two lines that one iteration of step 7 prints. *)
Definition checking_message (s : snp) : list N :=
  py "Checking "
  ++ (if bool_decide (name s = []) then id s else id s ++ py " (" ++ name s ++ py ")")
  ++ py " at position " ++ position s ++ py "...".

Definition found_message (snp_id : list N) : list N :=
  py "  Found " ++ snp_id ++ py " variant".

Definition no_variant_message (snp_id : list N) : list N :=
  py "  No variant found at " ++ snp_id ++ py " position".

Definition verdict_message (w : world) (s : snp) : list N :=
  if bool_decide (10 ≤ length (split TAB (first_line (temp_text w (position s)))))
  then found_message (id s) else no_variant_message (id s).

(** The files one iteration of step 7 leaves. *)
Definition files_after (w : world) (s : snp) (fs : gmap (list N) (list N))
  : gmap (list N) (list N) :=
  delete temp_bcftools_output
    (<[temp_file_of (id s) := temp_text w (position s)]>
       (<[temp_file_of (id s) := []]>
          (<[temp_bcftools_output := query_output w (position s)]> fs))).

(** A working directory left over from an earlier run: an old report, an
    old temporary file and the intermediate file are still there. *)
Definition stale : state :=
  State {[ temp_file_of (py "rs762551") := record ++ [LF];
           temp_bcftools_output := py "##old" ++ [LF];
           py "notes.txt" := py "keep" ]}
        (Some [[py "old"; py "report"]; [py "x"; py "y"; py "z"; py "t"; py "0/1"]])
        [py "earlier output"] [py "earlier command"].

(** A program that prints its answer with blanks and a Windows line end
    around it, and one that fails. *)
Definition padded : world := fun cmd =>
  if bool_decide (cmd = py "samtools --version")
  then (0%Z, py "  samtools 1.19 " ++ [TAB; CR; LF])
  else (127%Z, []).

(** * Properties *)

(** ** The text functions on examples *)

Example isspace_ex :
  isspace <$> [9; 10; 32; 31; 160; 12288; 35; 65; 27; 8203]%N
  = [true; true; true; true; true; true; false; false; false; false].
Proof. reflexivity. Qed.

Example strip_ex : strip (py "  a b " ++ [TAB; LF]) = py "a b".
Proof. reflexivity. Qed.

Example split_ex : split TAB ([TAB] ++ py "a" ++ [TAB; TAB] ++ py "bc")
                   = [py ""; py "a"; py ""; py "bc"].
Proof. reflexivity. Qed.

Example split_empty : split TAB [] = [[]].
Proof. reflexivity. Qed.

Example readline_ex :
  readline (universal_newlines (py "ab" ++ [CR; LF] ++ py "cd" ++ [LF]))
  = py "ab" ++ [LF].
Proof. reflexivity. Qed.

Example grep_ex :
  grep_v_comment (py "##x" ++ [LF] ++ py "a" ++ [LF; LF] ++ py "#c" ++ [LF] ++ py "d")
  = (py "a" ++ [LF; LF] ++ py "d" ++ [LF], 0%Z).
Proof. reflexivity. Qed.

Example grep_none : grep_v_comment (py "#b" ++ [LF]) = ([], 1%Z).
Proof. reflexivity. Qed.

(** The command lines are those of the script. *)
Example bcftools_cmd_text :
  shell_text (bcftools_cmd (py "chr15:74749576"))
  = py "bcftools view CYP1A2_annotated.vcf.gz chr15:74749576 > temp_bcftools_output.txt".
Proof. reflexivity. Qed.

Example grep_cmd_text :
  shell_text (grep_cmd (temp_file_of (py "rs762551")))
  = py "grep -v '^#' temp_bcftools_output.txt > temp_rs762551.txt".
Proof. reflexivity. Qed.

Example setup_commands_text :
  shell_text <$> setup_commands =
  [ py "samtools index seq.cram";
    py "samtools view seq.cram chr15:74745879-74756607 -b > CYP1A2.bam";
    py "samtools index CYP1A2.bam";
    py "bcftools mpileup -f ../../../GRCh38.d1.vd1.fa CYP1A2.bam | bcftools call -mv -Ov -o CYP1A2_variants.vcf.gz";
    py "java -jar /Users/matthewkinder/snpEff/snpEff.jar -v GRCh38.99 CYP1A2_variants.vcf.gz > CYP1A2_annotated.vcf";
    py "bgzip -c CYP1A2_annotated.vcf > CYP1A2_annotated.vcf.gz";
    py "tabix -p vcf CYP1A2_annotated.vcf.gz" ].
Proof. reflexivity. Qed.

(** ** Running the monad *)

Lemma bind_ok {A B} (m : M A) (f : A -> M B) st a st' :
  m st = (Ok a, st') -> (m ≫= f) st = f a st'.
Proof. intros H. unfold mbind, M_bind. by rewrite H. Qed.

Lemma bind_raise {A B} (m : M A) (f : A -> M B) st e st' :
  m st = (Raise e, st') -> (m ≫= f) st = (Raise e, st').
Proof. intros H. unfold mbind, M_bind. by rewrite H. Qed.

Lemma utf8_width_pos c : (0 < utf8_width c)%N.
Proof. unfold utf8_width. repeat case_match; lia. Qed.

Lemma utf8_size_empty text : (0 <? utf8_size text)%N = false <-> text = [].
Proof.
  destruct text as [|c text]; simpl; [done|].
  split; [|done]. intros H. apply N.ltb_ge in H.
  pose proof (utf8_width_pos c). lia.
Qed.

Lemma remove_if_exists_run p st :
  ∃ fs, remove_if_exists p st
        = (Ok (), State fs (report st) (console st) (spawned st))
        ∧ fs = delete p (files st).
Proof.
  exists (delete p (files st)). split; [|done].
  unfold remove_if_exists, os_path_exists, os_remove, get_files, set_files.
  unfold mbind, M_bind, mret, M_ret. simpl.
  case_bool_decide as Hp.
  - destruct Hp as [x Hx]. simpl. by rewrite Hx.
  - apply eq_None_not_Some in Hp. rewrite delete_id by done. by destruct st.
Qed.

Lemma sh_query w position fs :
  sh w (bcftools_cmd position) fs
  = (<[temp_bcftools_output := query_output w position]> fs,
     exit_status w (bcftools_cmd position)).
Proof.
  unfold sh, bcftools_cmd, query_output, exit_status.
  by destruct (w _).
Qed.

Lemma sh_grep w temp_file text fs :
  temp_file ≠ temp_bcftools_output ->
  fs !! temp_bcftools_output = Some text ->
  sh w (grep_cmd temp_file) fs
  = (<[temp_file := fst (grep_v_comment text)]> (<[temp_file := []]> fs),
     snd (grep_v_comment text)).
Proof.
  intros Hne Hfs. unfold sh, grep_cmd.
  rewrite lookup_insert_ne by done. rewrite Hfs.
  by destruct (grep_v_comment text).
Qed.

Lemma subprocess_run_unchecked w c st :
  subprocess_run w c false st
  = (Ok (), State (fst (sh w c (files st))) (report st) (console st)
                  (spawned st ++ [shell_text c])).
Proof. unfold subprocess_run. by destruct (sh w c (files st)). Qed.

Lemma report_not_found_run snp_id position st :
  report_not_found snp_id position st
  = (Ok (), State (files st)
              (Some (default [] (report st) ++ [not_found_row snp_id position]))
              (console st ++ [py "  No variant found at " ++ snp_id ++ py " position"])
              (spawned st)).
Proof. reflexivity. Qed.

Lemma getitem_ok {A} (l : list A) i x st :
  l !! i = Some x -> getitem l i st = (Ok x, st).
Proof. intros H. unfold getitem. by rewrite H. Qed.

Lemma lookup_nth_lt {A} (l : list A) i d :
  i < length l -> l !! i = Some (nth i l d).
Proof.
  intros H. destruct (lookup_lt_is_Some_2 l i H) as [x Hx].
  rewrite Hx. f_equal. symmetry. by apply nth_lookup_Some.
Qed.

Lemma split_nonempty sep s : 0 < length (split sep s).
Proof.
  induction s as [|c s IH]; simpl; [lia|].
  destruct (c =? sep)%N; simpl; [lia|].
  destruct (split sep s); simpl; lia.
Qed.

Local Ltac not_found_case :=
  cbv iota; eexists; (split; [apply report_not_found_run|]);
  cbn [report spawned]; by rewrite <- app_assoc.

Lemma extract_snp_run w s st :
  temp_file_of (id s) ≠ temp_bcftools_output ->
  ∃ st', extract_snp w s st = (Ok (), st')
         ∧ report st' = Some (default [] (report st) ++ [snp_row w s])
         ∧ spawned st' = spawned st ++ [shell_text (bcftools_cmd (position s));
                                        shell_text (grep_cmd (temp_file_of (id s)))].
Proof.
  intros Hne. unfold extract_snp.
  erewrite bind_ok by reflexivity.
  erewrite bind_ok by apply subprocess_run_unchecked.
  erewrite bind_ok by apply subprocess_run_unchecked.
  cbn [files report console spawned print fst snd].
  rewrite sh_query. cbn [fst].
  erewrite sh_grep; [|done|apply lookup_insert_eq]. cbn [fst].
  edestruct remove_if_exists_run as (fs & Hrm & Hfs).
  erewrite bind_ok by exact Hrm. clear Hrm.
  cbn [files report console spawned] in *.
  assert (Htf : fs !! temp_file_of (id s) = Some (temp_text w (position s))).
  { subst fs. rewrite lookup_delete_ne by done. apply lookup_insert_eq. }
  clear Hfs.
  unfold os_path_getsize, get_files.
  erewrite bind_ok by (erewrite bind_ok by reflexivity; cbn [files]; rewrite Htf; reflexivity).
  unfold snp_row, row_of_text.
  destruct (0 <? utf8_size (temp_text w (position s)))%N; [|not_found_case].
  unfold open_read, get_files.
  erewrite bind_ok by (erewrite bind_ok by reflexivity; cbn [files]; rewrite Htf; reflexivity).
  fold (first_line (temp_text w (position s))).
  case_bool_decide; [not_found_case|].
  case_bool_decide as Hlen; [|not_found_case].
  set (parts := split TAB _) in *.
  erewrite bind_ok by (apply getitem_ok, (lookup_nth_lt _ _ []); lia).
  erewrite bind_ok by (apply getitem_ok, (lookup_nth_lt _ _ []), split_nonempty).
  erewrite bind_ok by (apply getitem_ok, (lookup_nth_lt _ _ []); lia).
  erewrite bind_ok by (apply getitem_ok, (lookup_nth_lt _ _ []); lia).
  erewrite bind_ok by (apply getitem_ok, (lookup_nth_lt _ _ []); lia).
  erewrite bind_ok by reflexivity.
  eexists. split; [reflexivity|]. cbn [report spawned]. by rewrite <- app_assoc.
Qed.

Lemma extract_loop_run w (l : list snp) st rows :
  Forall (fun s => temp_file_of (id s) ≠ temp_bcftools_output) l ->
  report st = Some rows ->
  ∃ st', for_each l (extract_snp w) st = (Ok (), st')
         ∧ report st' = Some (rows ++ (snp_row w <$> l))
         ∧ spawned st' = spawned st ++
             concat ((fun s => [shell_text (bcftools_cmd (position s));
                                shell_text (grep_cmd (temp_file_of (id s)))]) <$> l).
Proof.
  intros Hl. revert st rows.
  induction Hl as [|s l Hs Hl IH]; intros st rows Hrep.
  - exists st. simpl. rewrite !app_nil_r. done.
  - destruct (extract_snp_run w s st Hs) as (st1 & Hrun & Hrep1 & Hsp1).
    rewrite Hrep in Hrep1. simpl in Hrep1.
    destruct (IH st1 _ Hrep1) as (st2 & Hrun2 & Hrep2 & Hsp2).
    exists st2. split; [|split].
    + simpl. by erewrite bind_ok by exact Hrun.
    + rewrite Hrep2. by rewrite <- app_assoc.
    + rewrite Hsp2, Hsp1. rewrite <- app_assoc. done.
Qed.

Lemma snps_temp_files :
  Forall (fun s => temp_file_of (id s) ≠ temp_bcftools_output) snps.
Proof. repeat constructor; by vm_compute. Qed.

Lemma cleanup_run st :
  ∃ fs, cleanup st = (Ok (), State fs (report st) (console st) (spawned st)).
Proof.
  unfold cleanup.
  assert (Hloop : ∀ (l : list snp) st,
    ∃ fs, for_each l (fun s => remove_if_exists (temp_file_of (id s))) st
          = (Ok (), State fs (report st) (console st) (spawned st))).
  { clear st. induction l as [|s l IH]; intros st.
    - exists (files st). by destruct st.
    - destruct (remove_if_exists_run (temp_file_of (id s)) st) as (fs & Hrm & _).
      destruct (IH (State fs (report st) (console st) (spawned st))) as (fs' & Hrest).
      exists fs'. simpl. by erewrite bind_ok by exact Hrm. }
  destruct (Hloop snps st) as (fs & Hfs).
  erewrite bind_ok by exact Hfs.
  destruct (remove_if_exists_run temp_bcftools_output
              (State fs (report st) (console st) (spawned st))) as (fs' & Hrm & _).
  by exists fs'.
Qed.

(** ** The genotype pass *)

Lemma genotype_label_fixed g : genotype_label (genotype_label g) = genotype_label g.
Proof.
  unfold genotype_label. repeat case_bool_decide; try done; by subst.
Qed.

Lemma convert_row_run r st : convert_row r st = (Ok (relabel r), st).
Proof.
  unfold convert_row, relabel.
  case_bool_decide as Hlen.
  - destruct (lookup_lt_is_Some_2 r 4 ltac:(lia)) as [g Hg].
    rewrite Hg. erewrite bind_ok by (by apply getitem_ok).
    unfold genotype_label, setitem.
    destruct (decide (4 < length r)); [|lia].
    repeat case_bool_decide; try done.
    by rewrite list_insert_id.
  - rewrite lookup_ge_None_2 by lia. done.
Qed.

Lemma convert_loop_run reader rows st :
  convert_loop reader rows st = (Ok (rows ++ (relabel <$> reader)), st).
Proof.
  revert rows. induction reader as [|r reader IH]; intros rows; simpl.
  - by rewrite app_nil_r.
  - erewrite bind_ok by apply convert_row_run.
    rewrite IH. by rewrite <- app_assoc.
Qed.

Lemma csv_writerows_run rs st rows :
  report st = Some rows ->
  csv_writerows rs st
  = (Ok (), State (files st) (Some (rows ++ rs)) (console st) (spawned st)).
Proof.
  unfold csv_writerows. revert st rows.
  induction rs as [|r rs IH]; intros st rows Hrep; simpl.
  - rewrite app_nil_r, <- Hrep. by destruct st.
  - erewrite bind_ok by reflexivity.
    erewrite IH by reflexivity. cbn [files report console spawned].
    rewrite Hrep. simpl. by rewrite <- app_assoc.
Qed.

Lemma convert_genotypes_run st h rows :
  report st = Some (h :: rows) ->
  convert_genotypes st
  = (Ok (), State (files st) (Some (h :: (relabel <$> rows))) (console st) (spawned st)).
Proof.
  intros Hrep. unfold convert_genotypes.
  erewrite bind_ok by (unfold csv_open_read; rewrite Hrep; reflexivity).
  rewrite (bind_ok (next (h :: rows)) _ st (h, rows) st) by reflexivity.
  erewrite bind_ok by apply convert_loop_run.
  erewrite bind_ok by reflexivity.
  erewrite bind_ok by reflexivity.
  erewrite csv_writerows_run by reflexivity. done.
Qed.

Lemma convert_genotypes_empty st :
  report st = Some [] -> convert_genotypes st = (Raise StopIteration, st).
Proof.
  intros Hrep. unfold convert_genotypes.
  erewrite bind_ok by (unfold csv_open_read; rewrite Hrep; reflexivity).
  done.
Qed.

Lemma convert_genotypes_missing st :
  report st = None ->
  convert_genotypes st = (Raise (FileNotFoundError (py "snp_report.csv")), st).
Proof.
  intros Hrep. unfold convert_genotypes.
  erewrite bind_raise; [done|]. unfold csv_open_read. by rewrite Hrep.
Qed.

(** ** The setup steps *)

Lemma sh_status w line r fs : snd (sh w (Sh line r) fs) = exit_status w (Sh line r).
Proof.
  unfold sh, exit_status. destruct r; [|done]. by destruct (w _).
Qed.

Lemma print_then {A} s (k : M A) st :
  (print s ;; k) st
  = k (State (files st) (report st) (console st ++ [s]) (spawned st)).
Proof. reflexivity. Qed.

Lemma checked_then {A} w line r (k : M A) st :
  (subprocess_run w (Sh line r) true ;; k) st
  = let st' := State (fst (sh w (Sh line r) (files st))) (report st) (console st)
                     (spawned st ++ [shell_text (Sh line r)]) in
    if failed w (Sh line r)
    then (Raise (CalledProcessError (exit_status w (Sh line r)) (shell_text (Sh line r))), st')
    else k st'.
Proof.
  unfold mbind, M_bind, subprocess_run, failed.
  rewrite <- (sh_status w line r (files st)).
  destruct (sh w (Sh line r) (files st)) as [fs code]. simpl.
  by destruct (code =? 0)%Z.
Qed.

Lemma checked_last w line r st :
  subprocess_run w (Sh line r) true st
  = let st' := State (fst (sh w (Sh line r) (files st))) (report st) (console st)
                     (spawned st ++ [shell_text (Sh line r)]) in
    if failed w (Sh line r)
    then (Raise (CalledProcessError (exit_status w (Sh line r)) (shell_text (Sh line r))), st')
    else (Ok (), st').
Proof.
  unfold subprocess_run, failed.
  rewrite <- (sh_status w line r (files st)).
  destruct (sh w (Sh line r) (files st)) as [fs code]. simpl.
  by destruct (code =? 0)%Z.
Qed.

Lemma setup_spec w st :
  fst (setup w st)
  = match first_failure w with
    | Some (_, c) => Raise (CalledProcessError (exit_status w c) (shell_text c))
    | None => Ok ()
    end
  ∧ report (snd (setup w st)) = report st
  ∧ spawned (snd (setup w st))
    = spawned st ++
        (shell_text <$> match first_failure w with
                        | Some (k, _) => take (S k) setup_commands
                        | None => setup_commands
                        end).
Proof.
  unfold setup, first_failure, setup_commands.
  unfold index_cram, extract_region, index_bam, call_variants, annotate, compress,
    index_vcf.
  cbn [list_find].
  repeat (rewrite ?print_then; rewrite checked_then || rewrite checked_last; cbv zeta;
          cbn [files report console spawned];
          match goal with
          | |- context [failed w ?c] => destruct (failed w c) eqn:?
          end;
          [cbn [fst snd report spawned decide Is_true_dec fmap option_fmap option_map
                  prod_map take list_fmap id];
           rewrite <- ?app_assoc; done|]).
  cbn [fst snd report spawned decide Is_true_dec fmap option_fmap option_map
         prod_map take list_fmap id].
  rewrite <- ?app_assoc. done.
Qed.

Lemma first_failure_None w :
  first_failure w = None <-> Forall (fun c => exit_status w c = 0%Z) setup_commands.
Proof.
  unfold first_failure. rewrite list_find_None.
  apply Forall_iff. intros c. unfold failed.
  destruct (Z.eqb_spec (exit_status w c) 0); simpl; naive_solver.
Qed.

Lemma first_failure_Some w k c :
  first_failure w = Some (k, c) ->
  setup_commands !! k = Some c ∧ exit_status w c ≠ 0%Z
  ∧ ∀ j c', j < k -> setup_commands !! j = Some c' -> exit_status w c' = 0%Z.
Proof.
  unfold first_failure. intros (Hk & Hc & Hbefore)%list_find_Some.
  split; [done|]. split.
  - unfold failed in Hc. by destruct (Z.eqb_spec (exit_status w c) 0).
  - intros j c' Hj Hc'. specialize (Hbefore j c' Hc' Hj).
    unfold failed in Hbefore. by destruct (Z.eqb_spec (exit_status w c') 0).
Qed.

(** ** The whole run *)

Lemma main_run w st :
  first_failure w = None ->
  ∃ st', main w st = (Ok (), st')
         ∧ report st' = Some (header :: (relabel <$> (snp_row w <$> snps)))
         ∧ spawned st' = spawned st ++ (shell_text <$> setup_commands) ++
             concat ((fun s => [shell_text (bcftools_cmd (position s));
                                shell_text (grep_cmd (temp_file_of (id s)))]) <$> snps).
Proof.
  intros Hok. unfold main.
  destruct (setup_spec w st) as (Hout & _ & Hsp). rewrite Hok in Hout, Hsp.
  destruct (setup w st) as [r st1] eqn:Hsetup. cbn [fst snd] in Hout, Hsp. subst r.
  erewrite bind_ok by exact Hsetup.
  do 3 (erewrite bind_ok by reflexivity).
  match goal with
  | |- context [(for_each snps (extract_snp w) ≫= _) ?s] =>
      destruct (extract_loop_run w snps s [header] snps_temp_files eq_refl)
        as (st2 & Hloop & Hrep2 & Hsp2)
  end.
  erewrite bind_ok by exact Hloop.
  destruct (cleanup_run st2) as (fs3 & Hclean).
  erewrite bind_ok by exact Hclean.
  erewrite bind_ok by reflexivity.
  erewrite bind_ok by (apply convert_genotypes_run; exact Hrep2).
  eexists. split; [reflexivity|].
  cbn [report spawned print snd]. split; [done|].
  rewrite Hsp2. cbn [spawned csv_writerow csv_open_write print snd]. rewrite Hsp.
  by rewrite <- app_assoc.
Qed.

Lemma main_abort w st k c :
  first_failure w = Some (k, c) ->
  ∃ st', main w st
         = (Raise (CalledProcessError (exit_status w c) (shell_text c)), st')
         ∧ report st' = report st
         ∧ spawned st' = spawned st ++ (shell_text <$> take (S k) setup_commands).
Proof.
  intros Hfail. unfold main.
  destruct (setup_spec w st) as (Hout & Hrep & Hsp). rewrite Hfail in Hout, Hsp.
  destruct (setup w st) as [r st1] eqn:Hsetup. cbn [fst snd] in Hout, Hrep, Hsp. subst r.
  erewrite bind_raise by exact Hsetup. eauto.
Qed.

(** ** Lines, grep and the first line *)

Lemma lines_from_line cur l rest :
  LF ∉ l ->
  lines_from cur (l ++ LF :: rest) = (reverse cur ++ l) :: lines_from [] rest.
Proof.
  revert cur. induction l as [|c l IH]; intros cur Hl; simpl.
  - by rewrite app_nil_r.
  - apply not_elem_of_cons in Hl as [Hc Hl].
    destruct (N.eqb_spec c LF) as [->|_]; [done|].
    rewrite IH by done. by rewrite reverse_cons, <- app_assoc.
Qed.

Lemma unlines_cons l ls : unlines (l :: ls) = l ++ LF :: unlines ls.
Proof. unfold unlines. simpl. by rewrite <- app_assoc. Qed.

Lemma lines_unlines_app ls rest :
  Forall (fun l => LF ∉ l) ls ->
  lines (unlines ls ++ rest) = ls ++ lines rest.
Proof.
  induction 1 as [|l ls Hl _ IH]; [done|].
  rewrite unlines_cons, <- app_assoc. simpl.
  unfold lines in *. rewrite lines_from_line by done.
  simpl. by rewrite IH.
Qed.

Lemma unlines_app ls1 ls2 : unlines (ls1 ++ ls2) = unlines ls1 ++ unlines ls2.
Proof. unfold unlines. by rewrite fmap_app, concat_app. Qed.

Lemma filter_comments_nil ls :
  Forall (fun l => is_comment l = true) ls ->
  filter (fun l => is_comment l = false) ls = [].
Proof.
  induction 1 as [|l ls Hl _ IH]; [done|].
  rewrite filter_cons_False by (rewrite Hl; done). done.
Qed.

Lemma grep_no_data text :
  Forall (fun l => is_comment l = true) (lines text) ->
  grep_v_comment text = ([], 1%Z).
Proof. intros H. unfold grep_v_comment. by rewrite filter_comments_nil. Qed.

(** The comment lines before the first data line are dropped; the data
    line comes first in what [grep] prints. *)
Lemma grep_first_data comments l rest :
  Forall (fun c => is_comment c = true ∧ LF ∉ c) comments ->
  is_comment l = false -> LF ∉ l ->
  fst (grep_v_comment (unlines (comments ++ [l]) ++ rest))
  = l ++ LF :: fst (grep_v_comment rest).
Proof.
  intros Hc Hl Hlf. unfold grep_v_comment. cbn [fst].
  rewrite lines_unlines_app.
  2:{ apply Forall_app. split; [|by repeat constructor].
      eapply Forall_impl; [exact Hc|]. by intros ? []. }
  rewrite <- app_assoc, !filter_app.
  rewrite filter_comments_nil.
  2:{ eapply Forall_impl; [exact Hc|]. by intros ? []. }
  simpl. rewrite filter_cons_True by done.
  rewrite filter_nil. simpl. by rewrite unlines_cons.
Qed.

Lemma readline_first l rest :
  LF ∉ l ->
  readline (universal_newlines (l ++ LF :: rest))
  = readline (universal_newlines (l ++ [LF])).
Proof.
  induction l as [|c l IH]; intros Hl; [done|].
  apply not_elem_of_cons in Hl as [Hc Hl].
  cbn [app universal_newlines].
  destruct (N.eqb_spec c CR) as [->|Hcr].
  - destruct l as [|d l]; [done|]. cbn [app].
    apply not_elem_of_cons in Hl as [Hd _].
    destruct (N.eqb_spec d LF) as [->|_]; done.
  - cbn [readline]. destruct (N.eqb_spec c LF) as [->|_]; [done|].
    by rewrite IH.
Qed.

Lemma row_of_text_first snp_id position l rest :
  LF ∉ l ->
  row_of_text snp_id position (l ++ LF :: rest)
  = row_of_text snp_id position (l ++ [LF]).
Proof.
  intros Hl. unfold row_of_text, first_line.
  rewrite readline_first by done.
  assert (Hsize : ∀ x, (0 <? utf8_size (l ++ LF :: x))%N = true).
  { intros x. destruct (0 <? utf8_size (l ++ LF :: x))%N eqn:E; [done|].
    apply utf8_size_empty in E. by destruct l. }
  by rewrite !Hsize.
Qed.

(** ** Fields *)

Lemma split_first sep s : split sep s !! 0 = Some (prefix_before sep s).
Proof.
  induction s as [|c s IH]; simpl; [done|].
  destruct (c =? sep)%N; [done|].
  destruct (split sep s) as [|f fs]; [done|].
  simpl in *. by injection IH as ->.
Qed.

Lemma prefix_before_spec sep s :
  (sep ∉ prefix_before sep s)
  ∧ (s = prefix_before sep s
     ∨ ∃ rest, s = prefix_before sep s ++ sep :: rest).
Proof.
  induction s as [|c s (Hnot & IH)]; simpl.
  - split; [apply not_elem_of_nil|by left].
  - destruct (N.eqb_spec c sep) as [->|Hne].
    + split; [apply not_elem_of_nil|]. right. by exists s.
    + split; [by apply not_elem_of_cons|].
      destruct IH as [IH|[rest IH]]; [left|right; exists rest];
        simpl; by rewrite <- IH.
Qed.

Lemma length_split sep s :
  length (split sep s) = S (length (filter (fun x => x = sep) s)).
Proof.
  induction s as [|c s IH]; [done|]. simpl.
  destruct (N.eqb_spec c sep) as [->|Hne].
  - rewrite filter_cons_True by done. simpl. by rewrite IH.
  - rewrite filter_cons_False by done.
    destruct (split sep s); simpl in *; lia.
Qed.

Lemma count_lstrip (sep : N) s :
  length (filter (fun x => x = sep) (lstrip s))
  ≤ length (filter (fun x => x = sep) s).
Proof.
  induction s as [|c s IH]; [done|]. simpl.
  destruct (isspace c); [|done].
  destruct (decide (c = sep)).
  - rewrite filter_cons_True by done. simpl. lia.
  - by rewrite filter_cons_False.
Qed.

Lemma count_reverse (sep : N) s :
  length (filter (fun x => x = sep) (reverse s))
  = length (filter (fun x => x = sep) s).
Proof. by rewrite reverse_Permutation. Qed.

(** Stripping never adds a field. *)
Lemma fields_strip sep s : length (split sep (strip s)) ≤ length (split sep s).
Proof.
  rewrite !length_split. unfold strip, rstrip.
  rewrite count_reverse.
  pose proof (count_lstrip sep (reverse (lstrip s))) as H1.
  rewrite count_reverse in H1.
  pose proof (count_lstrip sep s). lia.
Qed.

(** A line that neither starts nor ends with white space is parsed as
    it stands. *)
Lemma lstrip_clean c s : isspace c = false -> lstrip (c :: s) = c :: s.
Proof. intros H. simpl. by rewrite H. Qed.

Lemma strip_clean c s d :
  isspace c = false -> isspace d = false -> strip (c :: s ++ [d]) = c :: s ++ [d].
Proof.
  intros Hc Hd. unfold strip, rstrip. rewrite lstrip_clean by done.
  rewrite app_comm_cons, reverse_snoc, lstrip_clean by done.
  by rewrite <- reverse_snoc, reverse_involutive.
Qed.

Lemma strip_newline s d :
  isspace d = false -> strip ((s ++ [d]) ++ [LF]) = strip (s ++ [d]).
Proof.
  intros Hd. unfold strip, rstrip.
  assert (Hl : ∀ t, lstrip ((s ++ [d]) ++ t) = lstrip (s ++ [d]) ++ t).
  { intros t. induction s as [|c s IH]; simpl.
    - by rewrite Hd.
    - destruct (isspace c); [apply IH|done]. }
  rewrite Hl. by rewrite reverse_snoc.
Qed.

Lemma readline_clean l rest :
  LF ∉ l -> CR ∉ l ->
  readline (universal_newlines (l ++ LF :: rest)) = l ++ [LF].
Proof.
  induction l as [|c l IH]; intros Hlf Hcr; [done|].
  apply not_elem_of_cons in Hlf as [Hc1 Hlf].
  apply not_elem_of_cons in Hcr as [Hc2 Hcr].
  cbn [app universal_newlines].
  destruct (N.eqb_spec c CR) as [->|_]; [done|].
  cbn [readline]. destruct (N.eqb_spec c LF) as [->|_]; [done|].
  by rewrite IH.
Qed.

(** A data line that neither starts nor ends with white space is
    parsed as it stands. *)
Lemma first_line_clean c l d rest :
  isspace c = false -> isspace d = false ->
  LF ∉ l -> CR ∉ l ->
  first_line ((c :: l ++ [d]) ++ LF :: rest) = c :: l ++ [d].
Proof.
  intros Hc Hd Hlf Hcr. unfold first_line.
  assert (Hsp : ∀ x, isspace x = false -> x ≠ LF ∧ x ≠ CR).
  { intros x Hx. split; intros ->; discriminate. }
  destruct (Hsp c Hc) as [? ?]. destruct (Hsp d Hd) as [? ?].
  rewrite readline_clean.
  - rewrite app_comm_cons, strip_newline by done.
    rewrite <- app_comm_cons. by apply strip_clean.
  - rewrite app_comm_cons. apply not_elem_of_app. split.
    + by apply not_elem_of_cons.
    + by apply not_elem_of_cons; split; [|apply not_elem_of_nil].
  - rewrite app_comm_cons. apply not_elem_of_app. split.
    + by apply not_elem_of_cons.
    + by apply not_elem_of_cons; split; [|apply not_elem_of_nil].
Qed.

(** * The claims *)

(** ** Genotype labels *)

(** C2. The genotype mapping is a function of the genotype field alone:
    on a row whose fifth column holds [g] the pass replaces that column
    by a label that depends only on [g], and leaves the machine state
    alone; the label is ["Homozygous Reference"] for ["0/0"],
    ["Heterozygous"] for ["0/1"], ["Homozygous Alternate"] for ["1/1"],
    and [g] itself for every other value. *)
Theorem C2_genotype_label (r : list (list N)) (g : list N) (st : state) :
  r !! 4 = Some g ->
  convert_row r st = (Ok (<[4 := genotype_label g]> r), st)
  ∧ (g = py "0/0" -> genotype_label g = py "Homozygous Reference")
  ∧ (g = py "0/1" -> genotype_label g = py "Heterozygous")
  ∧ (g = py "1/1" -> genotype_label g = py "Homozygous Alternate")
  ∧ (g ≠ py "0/0" -> g ≠ py "0/1" -> g ≠ py "1/1" -> genotype_label g = g).
Proof.
  intros Hg. split.
  - rewrite convert_row_run. unfold relabel. by rewrite Hg.
  - unfold genotype_label. repeat split; intros; subst;
      repeat case_bool_decide; done.
Qed.

Lemma C2_witness :
  [py "rs1"; py "chr1:1"; py "A"; py "G"; py "0/1"; py "x"] !! 4 = Some (py "0/1")
  ∧ convert_row [py "rs1"; py "chr1:1"; py "A"; py "G"; py "0/1"; py "x"] initial
    = (Ok [py "rs1"; py "chr1:1"; py "A"; py "G"; py "Heterozygous"; py "x"], initial).
Proof.
  split; [reflexivity|].
  exact (proj1 (C2_genotype_label
                  [py "rs1"; py "chr1:1"; py "A"; py "G"; py "0/1"; py "x"]
                  (py "0/1") initial eq_refl)).
Defined.

Example genotype_label_codes :
  genotype_label <$> [py "0/0"; py "0/1"; py "1/1"]
  = [py "Homozygous Reference"; py "Heterozygous"; py "Homozygous Alternate"].
Proof. reflexivity. Qed.

Example genotype_label_others :
  genotype_label <$> [py "not found"; py "0|1"; py "1|1"; py "1/2"; py "./."; py "1/0";
                      py ""; py "0/1 "; py "Heterozygous"]
  = [py "not found"; py "0|1"; py "1|1"; py "1/2"; py "./."; py "1/0";
     py ""; py "0/1 "; py "Heterozygous"].
Proof. reflexivity. Qed.

Lemma relabel_fixed r : relabel (relabel r) = relabel r.
Proof.
  unfold relabel. destruct (r !! 4) as [g|] eqn:Hg; [|by rewrite Hg].
  rewrite list_lookup_insert_eq by (by eapply lookup_lt_Some).
  by rewrite list_insert_insert_eq, genotype_label_fixed.
Qed.

Lemma relabel_length r : length (relabel r) = length r.
Proof. unfold relabel. destruct (r !! 4); [apply length_insert|done]. Qed.

Lemma relabel_other r j : j ≠ 4 -> relabel r !! j = r !! j.
Proof.
  intros Hj. unfold relabel. destruct (r !! 4); [|done].
  by apply list_lookup_insert_ne.
Qed.

Lemma relabel_short r : length r < 5 -> relabel r = r.
Proof. intros H. unfold relabel. by rewrite lookup_ge_None_2 by lia. Qed.

(** C5. The genotype pass is idempotent: run on a report with a header
    row it succeeds, and a second run succeeds and leaves the machine
    exactly as the first run left it, since the three labels are not
    themselves codes. *)
Theorem C5_pass_idempotent (st : state) (h : list (list N)) (rows : list (list (list N))) :
  report st = Some (h :: rows) ->
  ∃ st', convert_genotypes st = (Ok (), st')
         ∧ convert_genotypes st' = (Ok (), st')
         ∧ (convert_genotypes ;; convert_genotypes) st = convert_genotypes st
         ∧ genotype_label <$> [py "Homozygous Reference"; py "Heterozygous";
                               py "Homozygous Alternate"]
           = [py "Homozygous Reference"; py "Heterozygous"; py "Homozygous Alternate"].
Proof.
  intros Hrep. eexists. split; [by apply convert_genotypes_run|].
  assert (Hagain :
    convert_genotypes
      (State (files st) (Some (h :: (relabel <$> rows))) (console st) (spawned st))
    = (Ok (), State (files st) (Some (h :: (relabel <$> rows))) (console st)
                    (spawned st))).
  { erewrite convert_genotypes_run by reflexivity. cbn [files console spawned].
    do 4 f_equal. rewrite <- list_fmap_compose.
    apply list_fmap_ext. intros _ r _. apply relabel_fixed. }
  split; [exact Hagain|]. split; [|reflexivity].
  erewrite bind_ok by (by apply convert_genotypes_run).
  rewrite Hagain. symmetry. by apply convert_genotypes_run.
Qed.

Lemma C5_witness :
  report (with_report sample_report) = Some (header :: tail sample_report)
  ∧ ∃ st', convert_genotypes (with_report sample_report) = (Ok (), st')
           ∧ convert_genotypes st' = (Ok (), st').
Proof.
  split; [reflexivity|].
  destruct (C5_pass_idempotent (with_report sample_report) header (tail sample_report)
              eq_refl) as (st' & H1 & H2 & _).
  exists st'. split; [exact H1|exact H2].
Defined.

(** C9. The genotype pass keeps the header row, the number and order of
    the data rows, the length of every row and every column other than
    the fifth; files, console and the list of commands run are
    untouched. *)
Theorem C9_pass_frame (st : state) (h : list (list N)) (rows : list (list (list N))) :
  report st = Some (h :: rows) ->
  ∃ rows',
    convert_genotypes st
    = (Ok (), State (files st) (Some (h :: rows')) (console st) (spawned st))
    ∧ length rows' = length rows
    ∧ ∀ i r, rows !! i = Some r ->
        ∃ r', rows' !! i = Some r'
              ∧ length r' = length r
              ∧ ∀ j, j ≠ 4 -> r' !! j = r !! j.
Proof.
  intros Hrep. exists (relabel <$> rows).
  split; [by apply convert_genotypes_run|].
  split; [apply length_fmap|].
  intros i r Hr. exists (relabel r).
  split; [by rewrite list_lookup_fmap, Hr|].
  split; [apply relabel_length|]. intros j Hj. by apply relabel_other.
Qed.

Lemma C9_witness :
  report (with_report sample_report) = Some (header :: tail sample_report)
  ∧ report_after convert_genotypes (with_report sample_report)
    = Some [ header;
             [py "rs1"; py "chr1:1"; py "A"; py "G"; py "Homozygous Reference"; py "x"];
             [py "rs2"; py "chr1:2"; py "0/1"; py "1/1"; py "Homozygous Alternate";
              py "0/0"; py "extra"];
             [py "rs3"; py "chr1:3"; py "0/1"; py "T"];
             [];
             [py "rs4"; py "chr1:4"; py "C"; py "T"; py "0|1"];
             [py "rs5"; py "chr1:5"; py "C"; py "T"; py "Heterozygous"; py "y"] ]
  ∧ ∃ rows',
      convert_genotypes (with_report sample_report)
      = (Ok (), State ∅ (Some (header :: rows')) [] [])
      ∧ length rows' = 6.
Proof.
  split; [reflexivity|]. split; [reflexivity|].
  destruct (C9_pass_frame (with_report sample_report) header (tail sample_report)
              eq_refl) as (rows' & Hrun & Hlen & _).
  exists rows'. split; [exact Hrun|exact Hlen].
Defined.

(** C10. A data row with fewer than five columns is never indexed: the
    pass looks at the length of the row first, raises no [IndexError],
    and hands the row on unchanged, at its place in the report. *)
Theorem C10_short_rows (st : state) (h : list (list N)) (rows : list (list (list N)))
    (i : nat) (r : list (list N)) :
  report st = Some (h :: rows) ->
  rows !! i = Some r ->
  length r < 5 ->
  getitem r 4 st = (Raise IndexError, st)
  ∧ convert_row r st = (Ok r, st)
  ∧ outcome convert_genotypes st = Ok ()
  ∧ row_after convert_genotypes st (S i) = Some r.
Proof.
  intros Hrep Hr Hlen. split; [|split; [|split]].
  - unfold getitem. by rewrite lookup_ge_None_2 by lia.
  - by rewrite convert_row_run, relabel_short.
  - unfold outcome. by erewrite convert_genotypes_run.
  - unfold row_after, report_after. erewrite convert_genotypes_run by done.
    cbn [snd report].
    change (Some (h :: (relabel <$> rows)) ≫= (.!! S i))
      with ((relabel <$> rows) !! i).
    rewrite list_lookup_fmap, Hr. cbn [fmap option_fmap option_map].
    by rewrite relabel_short.
Qed.

Lemma C10_witness :
  report (with_report sample_report) = Some (header :: tail sample_report)
  ∧ tail sample_report !! 2 = Some [py "rs3"; py "chr1:3"; py "0/1"; py "T"]
  ∧ length [py "rs3"; py "chr1:3"; py "0/1"; py "T"] < 5
  ∧ outcome convert_genotypes (with_report sample_report) = Ok ()
  ∧ row_after convert_genotypes (with_report sample_report) 3
    = Some [py "rs3"; py "chr1:3"; py "0/1"; py "T"].
Proof.
  split; [reflexivity|]. split; [reflexivity|]. split; [simpl; lia|].
  exact (proj2 (proj2 (C10_short_rows (with_report sample_report) header
                         (tail sample_report) 2
                         [py "rs3"; py "chr1:3"; py "0/1"; py "T"]
                         eq_refl eq_refl ltac:(simpl; lia)))).
Defined.

(** ** One row per SNP *)

Lemma snps_lookup_temp i s :
  snps !! i = Some s -> temp_file_of (id s) ≠ temp_bcftools_output.
Proof.
  intros Hs. exact (proj1 (Forall_lookup _ _) snps_temp_files i s Hs).
Qed.

Lemma extract_snp_row w s st :
  temp_file_of (id s) ≠ temp_bcftools_output ->
  outcome (extract_snp w s) st = Ok ()
  ∧ report_after (extract_snp w s) st
    = Some (default [] (report st) ++ [snp_row w s]).
Proof.
  intros Hne. destruct (extract_snp_run w s st Hne) as (st' & Hrun & Hrep & _).
  unfold outcome, report_after. by rewrite Hrun.
Qed.

Lemma main_row w st i s :
  first_failure w = None ->
  snps !! i = Some s ->
  row_after (main w) st (S i) = Some (relabel (snp_row w s)).
Proof.
  intros Hok Hs. destruct (main_run w st Hok) as (st' & Hrun & Hrep & _).
  unfold row_after, report_after. rewrite Hrun. cbn [snd]. rewrite Hrep.
  change (Some (header :: (relabel <$> (snp_row w <$> snps))) ≫= (.!! S i))
    with ((relabel <$> (snp_row w <$> snps)) !! i).
  by rewrite !list_lookup_fmap, Hs.
Qed.

Lemma row_of_text_found snp_id position text :
  10 ≤ length (split TAB (first_line text)) ->
  row_of_text snp_id position text
  = [snp_id; position; nth 3 (split TAB (first_line text)) [];
     nth 4 (split TAB (first_line text)) [];
     nth 0 (split COLON (nth 9 (split TAB (first_line text)) [])) [];
     nth 7 (split TAB (first_line text)) []].
Proof.
  intros Hlen. unfold row_of_text.
  destruct (0 <? utf8_size text)%N eqn:Hsize.
  - case_bool_decide as Hline; [rewrite Hline in Hlen; simpl in Hlen; lia|].
    by rewrite bool_decide_eq_true_2.
  - apply utf8_size_empty in Hsize. subst text. simpl in Hlen. lia.
Qed.

Lemma row_of_text_not_found snp_id position text :
  length (split TAB (first_line text)) < 10 ->
  row_of_text snp_id position text = not_found_row snp_id position.
Proof.
  intros Hlen. unfold row_of_text.
  destruct (0 <? utf8_size text)%N; [|done].
  case_bool_decide; [done|].
  by rewrite bool_decide_eq_false_2 by lia.
Qed.

Lemma relabel_not_found snp_id position :
  relabel (not_found_row snp_id position) = not_found_row snp_id position.
Proof. reflexivity. Qed.





(** C3, as the code has it.  When the query for a SNP yields no data
    line, or the line the script parses is empty, or the first line has
    fewer than 10 tab-separated fields (before or after stripping), the
    row written for the SNP is its id and position followed by
    ["not found"] in each of the four columns Reference, Alternative,
    Genotype and Annotation; the genotype pass leaves that row as it
    is. *)
Theorem C3_not_found_row (w : world) (st : state) (i : nat) (s : snp) :
  first_failure w = None ->
  snps !! i = Some s ->
  Forall (fun l => is_comment l = true) (lines (query_output w (position s)))
  ∨ first_line (temp_text w (position s)) = []
  ∨ length (split TAB (readline (universal_newlines (temp_text w (position s))))) < 10
  ∨ length (split TAB (first_line (temp_text w (position s)))) < 10 ->
  (∀ st1, outcome (extract_snp w s) st1 = Ok ()
          ∧ report_after (extract_snp w s) st1
            = Some (default [] (report st1) ++
                    [[id s; position s; not_found; not_found; not_found; not_found]]))
  ∧ row_after (main w) st (S i)
    = Some [id s; position s; not_found; not_found; not_found; not_found].
Proof.
  intros Hok Hs Hcase.
  assert (Hlen : length (split TAB (first_line (temp_text w (position s)))) < 10).
  { destruct Hcase as [Hnone|[Hempty|[Hraw|Hlen]]]; [| |
      |done].
    - unfold temp_text. rewrite grep_no_data by done. simpl. lia.
    - rewrite Hempty. simpl. lia.
    - unfold first_line.
      pose proof (fields_strip TAB
        (readline (universal_newlines (temp_text w (position s))))). lia. }
  assert (Hrow : snp_row w s = not_found_row (id s) (position s)).
  { unfold snp_row. by apply row_of_text_not_found. }
  unfold not_found_row in Hrow. split.
  - intros st1. rewrite <- Hrow. by apply extract_snp_row, (snps_lookup_temp i).
  - by rewrite (main_row _ _ _ _ Hok Hs), Hrow.
Qed.

Lemma C3_witness :
  first_failure short_record = None
  ∧ snps !! 1 = Some (Snp (py "rs2069514") (py "CYP1A2*1C") (py "chr15:74754823"))
  ∧ length (split TAB (readline (universal_newlines
              (temp_text short_record (py "chr15:74754823"))))) < 10
  ∧ row_after (main short_record) initial 2
    = Some [py "rs2069514"; py "chr15:74754823"; not_found; not_found; not_found;
            not_found].
Proof.
  assert (H1 : first_failure short_record = None) by (vm_compute; reflexivity).
  assert (H2 : snps !! 1
               = Some (Snp (py "rs2069514") (py "CYP1A2*1C") (py "chr15:74754823")))
    by reflexivity.
  assert (H3 : length (split TAB (readline (universal_newlines
                 (temp_text short_record (py "chr15:74754823"))))) < 10)
    by (vm_compute; lia).
  split; [exact H1|]. split; [exact H2|]. split; [exact H3|].
  exact (proj2 (C3_not_found_row short_record initial 1 _ H1 H2
                  (or_intror (or_intror (or_introl H3))))).
Defined.

(** C3 as written fails: with no data line at chr15:74749576 the row
    for rs762551 has six columns, the id and the position first, and is
    not five times ["not found"]. *)
Lemma C3_counterexample :
  temp_text silent (py "chr15:74749576") = []
  ∧ row_after (main silent) initial 1
    = Some [py "rs762551"; py "chr15:74749576"; py "not found"; py "not found";
            py "not found"; py "not found"]
  ∧ row_after (main silent) initial 1
    ≠ Some [py "not found"; py "not found"; py "not found"; py "not found";
            py "not found"].
Proof.
  split; [reflexivity|].
  assert (H : row_after (main silent) initial 1
              = Some [py "rs762551"; py "chr15:74749576"; py "not found";
                      py "not found"; py "not found"; py "not found"])
    by (vm_compute; reflexivity).
  split; [exact H|]. rewrite H. discriminate.
Qed.

Lemma snp_row_shape w s :
  ∃ ref alt genotype info,
    snp_row w s = [id s; position s; ref; alt; genotype; info].
Proof.
  unfold snp_row, row_of_text, not_found_row.
  repeat case_match; eauto.
Qed.

(** C4. A run that completes leaves a report made of the header row and
    then exactly five rows, whose first column is, in this order,
    rs762551, rs2069514, rs2472300, rs2472304, rs2470893, and whose
    second column is the position declared for that id. *)
Theorem C4_one_row_per_snp (w : world) (st : state) :
  outcome (main w) st = Ok () ->
  ∃ rows,
    report_after (main w) st = Some (header :: rows)
    ∧ length rows = 5
    ∧ (.!! 0) <$> rows = Some ∘ id <$> snps
    ∧ (.!! 1) <$> rows = Some ∘ position <$> snps
    ∧ id <$> snps = [py "rs762551"; py "rs2069514"; py "rs2472300"; py "rs2472304";
                     py "rs2470893"].
Proof.
  intros Hdone. destruct (first_failure w) as [[k c]|] eqn:Hfail.
  { destruct (main_abort w st k c Hfail) as (st' & Hrun & _).
    unfold outcome in Hdone. by rewrite Hrun in Hdone. }
  destruct (main_run w st Hfail) as (st' & Hrun & Hrep & _).
  exists (relabel <$> (snp_row w <$> snps)).
  unfold report_after. rewrite Hrun. cbn [snd].
  split; [done|]. split; [by rewrite !length_fmap|].
  rewrite <- !list_fmap_compose.
  repeat split; apply list_fmap_ext; intros _ s _; simpl;
    destruct (snp_row_shape w s) as (ref & alt & g & info & ->); reflexivity.
Qed.

Lemma C4_witness :
  outcome (main one_record) initial = Ok ()
  ∧ ∃ rows, report_after (main one_record) initial = Some (header :: rows)
            ∧ length rows = 5.
Proof.
  assert (H : outcome (main one_record) initial = Ok ()) by (vm_compute; reflexivity).
  split; [exact H|].
  destruct (C4_one_row_per_snp one_record initial H) as (rows & Hrep & Hlen & _).
  exists rows. split; [exact Hrep|exact Hlen].
Defined.

(** ** End to end *)

Lemma grep_nothing : grep_v_comment [] = ([], 1%Z).
Proof. reflexivity. Qed.

Lemma temp_text_first w position comments l rest :
  Forall (fun c => is_comment c = true ∧ LF ∉ c) comments ->
  is_comment l = false -> LF ∉ l ->
  query_output w position = unlines (comments ++ [l]) ++ rest ->
  temp_text w position = l ++ LF :: fst (grep_v_comment rest).
Proof.
  intros Hc Hl Hlf Hq. unfold temp_text. rewrite Hq. by apply grep_first_data.
Qed.

(** C6. If the query at chr15:74749576 prints the record
    [chr15 74749576 . A G 50 PASS ANN=xyz GT:DP 0/1:30], alone or after
    header lines, then after both passes the row for rs762551 reads
    rs762551, chr15:74749576, A, G, Heterozygous, ANN=xyz. *)
Theorem C6_end_to_end (w : world) (st : state) (comments : list (list N)) :
  first_failure w = None ->
  Forall (fun c => is_comment c = true ∧ LF ∉ c) comments ->
  query_output w (py "chr15:74749576") = unlines (comments ++ [record]) ->
  row_after (main w) st 1
  = Some [py "rs762551"; py "chr15:74749576"; py "A"; py "G"; py "Heterozygous";
          py "ANN=xyz"].
Proof.
  intros Hok Hc Hq.
  rewrite (main_row w st 0 _ Hok eq_refl).
  unfold snp_row. cbn [id position].
  rewrite (temp_text_first w _ comments record []); [ |done| | |].
  - vm_compute. reflexivity.
  - reflexivity.
  - compute_done.
  - by rewrite app_nil_r.
Qed.

Lemma C6_witness :
  first_failure one_record = None
  ∧ Forall (fun c => is_comment c = true ∧ LF ∉ c) vcf_header
  ∧ query_output one_record (py "chr15:74749576") = unlines (vcf_header ++ [record])
  ∧ row_after (main one_record) initial 1
    = Some [py "rs762551"; py "chr15:74749576"; py "A"; py "G"; py "Heterozygous";
            py "ANN=xyz"].
Proof.
  assert (H1 : first_failure one_record = None) by (vm_compute; reflexivity).
  assert (H2 : Forall (fun c => is_comment c = true ∧ LF ∉ c) vcf_header).
  { compute_done. }
  assert (H3 : query_output one_record (py "chr15:74749576")
               = unlines (vcf_header ++ [record])) by reflexivity.
  split; [exact H1|]. split; [exact H2|]. split; [exact H3|].
  exact (C6_end_to_end one_record initial vcf_header H1 H2 H3).
Defined.

Example one_record_report :
  report_after (main one_record) initial
  = Some [ header;
           [py "rs762551"; py "chr15:74749576"; py "A"; py "G"; py "Heterozygous";
            py "ANN=xyz"];
           not_found_row (py "rs2069514") (py "chr15:74754823");
           not_found_row (py "rs2472300") (py "chr15:74749234");
           not_found_row (py "rs2472304") (py "chr15:74751897");
           not_found_row (py "rs2470893") (py "chr15:74745879") ].
Proof. vm_compute. reflexivity. Qed.

(** C8. Only the first line that [grep] leaves counts: two runs whose
    query output for a SNP has the same first data line, after whatever
    comment lines and before whatever further lines, write the same row
    for that SNP, at step 7 and in the final report. *)
Theorem C8_first_line_only (w w' : world) (st st' : state) (i : nat) (s : snp)
    (comments comments' : list (list N)) (l rest rest' : list N) :
  first_failure w = None ->
  first_failure w' = None ->
  snps !! i = Some s ->
  Forall (fun c => is_comment c = true ∧ LF ∉ c) comments ->
  Forall (fun c => is_comment c = true ∧ LF ∉ c) comments' ->
  is_comment l = false ->
  LF ∉ l ->
  query_output w (position s) = unlines (comments ++ [l]) ++ rest ->
  query_output w' (position s) = unlines (comments' ++ [l]) ++ rest' ->
  (∀ st1, report_after (extract_snp w s) st1 = report_after (extract_snp w' s) st1)
  ∧ row_after (main w) st (S i) = row_after (main w') st' (S i)
  ∧ row_after (main w) st (S i)
    = Some (relabel (row_of_text (id s) (position s) (l ++ [LF]))).
Proof.
  intros Hok Hok' Hs Hc Hc' Hl Hlf Hq Hq'.
  assert (Hrow : ∀ v cs r, Forall (fun c => is_comment c = true ∧ LF ∉ c) cs ->
            query_output v (position s) = unlines (cs ++ [l]) ++ r ->
            snp_row v s = row_of_text (id s) (position s) (l ++ [LF])).
  { intros v cs r Hcs Hv. unfold snp_row.
    rewrite (temp_text_first v _ cs l r) by done.
    by apply row_of_text_first. }
  pose proof (Hrow w comments rest Hc Hq) as Hw.
  pose proof (Hrow w' comments' rest' Hc' Hq') as Hw'.
  pose proof (snps_lookup_temp i s Hs) as Hne.
  split; [|split].
  - intros st1.
    rewrite (proj2 (extract_snp_row w s st1 Hne)).
    rewrite (proj2 (extract_snp_row w' s st1 Hne)). by rewrite Hw, Hw'.
  - rewrite (main_row _ _ _ _ Hok Hs), (main_row _ _ _ _ Hok' Hs). by rewrite Hw, Hw'.
  - by rewrite (main_row _ _ _ _ Hok Hs), Hw.
Qed.

Lemma C8_witness :
  first_failure two_records = None
  ∧ first_failure one_record = None
  ∧ query_output two_records (py "chr15:74749576")
    = unlines (vcf_header ++ [record])
      ++ unlines [tab_join [py "chr15"; py "74749576"; py "."; py "C"; py "T";
                            py "9"; py "q10"; py "ANN=other"; py "GT"; py "1/1"]]
  ∧ query_output one_record (py "chr15:74749576")
    = unlines (vcf_header ++ [record]) ++ []
  ∧ row_after (main two_records) initial 1 = row_after (main one_record) initial 1
  ∧ row_after (main two_records) initial 1
    = Some [py "rs762551"; py "chr15:74749576"; py "A"; py "G"; py "Heterozygous";
            py "ANN=xyz"].
Proof.
  assert (H1 : first_failure two_records = None) by (vm_compute; reflexivity).
  assert (H2 : first_failure one_record = None) by (vm_compute; reflexivity).
  assert (H3 : snps !! 0
               = Some (Snp (py "rs762551") (py "CYP1A2*1F") (py "chr15:74749576")))
    by reflexivity.
  assert (H4 : Forall (fun c => is_comment c = true ∧ LF ∉ c) vcf_header)
    by compute_done.
  assert (H5 : is_comment record = false) by reflexivity.
  assert (H6 : LF ∉ record) by compute_done.
  assert (H7 : query_output two_records (py "chr15:74749576")
    = unlines (vcf_header ++ [record])
      ++ unlines [tab_join [py "chr15"; py "74749576"; py "."; py "C"; py "T";
                            py "9"; py "q10"; py "ANN=other"; py "GT"; py "1/1"]])
    by reflexivity.
  assert (H8 : query_output one_record (py "chr15:74749576")
    = unlines (vcf_header ++ [record]) ++ []) by reflexivity.
  split; [exact H1|]. split; [exact H2|]. split; [exact H7|]. split; [exact H8|].
  destruct (C8_first_line_only two_records one_record initial initial 0 _
              vcf_header vcf_header record _ _ H1 H2 H3 H4 H4 H5 H6 H7 H8)
    as (_ & Hsame & Hrow).
  split; [exact Hsame|]. rewrite Hrow. vm_compute. reflexivity.
Defined.

(** ** Error policy *)

Lemma spawned_by_eq {A} (m : M A) st l :
  spawned (snd (m st)) = spawned st ++ l -> spawned_by m st = l.
Proof. intros H. unfold spawned_by. rewrite H. by rewrite drop_app_length. Qed.

Lemma setup_commands_distinct : NoDup (shell_text <$> setup_commands).
Proof. compute_done. Qed.

Lemma steps_1_to_7_run w st :
  first_failure w = None ->
  ∃ st', steps_1_to_7 w st = (Ok (), st')
         ∧ report st' = Some (header :: (snp_row w <$> snps))
         ∧ spawned st' = spawned st ++ (shell_text <$> setup_commands) ++
             concat ((fun s => [shell_text (bcftools_cmd (position s));
                                shell_text (grep_cmd (temp_file_of (id s)))]) <$> snps).
Proof.
  intros Hok. unfold steps_1_to_7.
  destruct (setup_spec w st) as (Hout & _ & Hsp). rewrite Hok in Hout, Hsp.
  destruct (setup w st) as [r st1] eqn:Hsetup. cbn [fst snd] in Hout, Hsp. subst r.
  erewrite bind_ok by exact Hsetup.
  do 3 (erewrite bind_ok by reflexivity).
  match goal with
  | |- context [for_each snps (extract_snp w) ?s] =>
      destruct (extract_loop_run w snps s [header] snps_temp_files eq_refl)
        as (st2 & Hloop & Hrep2 & Hsp2)
  end.
  exists st2. split; [exact Hloop|]. split; [exact Hrep2|].
  rewrite Hsp2. cbn [spawned csv_writerow csv_open_write print snd]. rewrite Hsp.
  by rewrite <- app_assoc.
Qed.

Lemma main_steps w st : main w st = (steps_1_to_7 w ;; steps_after_7) st.
Proof.
  unfold main, steps_1_to_7, steps_after_7, mbind, M_bind.
  destruct (setup w st) as [[[]|e] st1]; [|done].
  cbv beta delta [print csv_open_write csv_writerow] iota.
  by destruct (for_each snps (extract_snp w) _) as [[[]|e] st2].
Qed.

(** C7. A setup step that ends with a non-zero status aborts the run:
    [main] raises [CalledProcessError] for the first such step, having
    run the setup commands up to it once each and nothing else, and
    having written no report.  A non-zero status of a per-SNP query or
    filter command aborts nothing: a command run with [check=False]
    never raises, every iteration of the SNP loop ends normally with one
    row recorded for its SNP, and when all setup steps end with status 0
    the run gets through steps 1 to 7 with the header and one row per
    SNP written and every command run once. *)
Theorem C7_error_policy (w : world) (st : state) :
  (∀ c, c ∈ setup_commands -> exit_status w c ≠ 0%Z ->
     ∃ k c', first_failure w = Some (k, c')
       ∧ setup_commands !! k = Some c'
       ∧ exit_status w c' ≠ 0%Z
       ∧ outcome (main w) st
         = Raise (CalledProcessError (exit_status w c') (shell_text c'))
       ∧ spawned_by (main w) st = shell_text <$> take (S k) setup_commands
       ∧ NoDup (spawned_by (main w) st)
       ∧ report_after (main w) st = report st)
  ∧ (∀ c st1, outcome (subprocess_run w c false) st1 = Ok ())
  ∧ (∀ i s st1, snps !! i = Some s ->
       outcome (extract_snp w s) st1 = Ok ()
       ∧ spawned_by (extract_snp w s) st1
         = [shell_text (bcftools_cmd (position s));
            shell_text (grep_cmd (temp_file_of (id s)))]
       ∧ ∃ r, report_after (extract_snp w s) st1
              = Some (default [] (report st1) ++ [r])
              ∧ r !! 0 = Some (id s))
  ∧ (∀ st0, main w st0 = (steps_1_to_7 w ;; steps_after_7) st0)
  ∧ ((∀ c, c ∈ setup_commands -> exit_status w c = 0%Z) ->
     outcome (steps_1_to_7 w) st = Ok ()
     ∧ (∃ rows, report_after (steps_1_to_7 w) st = Some (header :: rows)
                ∧ (.!! 0) <$> rows = Some ∘ id <$> snps)
     ∧ spawned_by (steps_1_to_7 w) st
       = (shell_text <$> setup_commands) ++
         concat ((fun s => [shell_text (bcftools_cmd (position s));
                            shell_text (grep_cmd (temp_file_of (id s)))]) <$> snps)
     ∧ NoDup (spawned_by (steps_1_to_7 w) st)).
Proof.
  split; [|split; [|split; [|split]]].
  - intros c Hc Hstatus.
    destruct (first_failure w) as [[k c']|] eqn:Hfail.
    2:{ apply first_failure_None in Hfail.
        by pose proof (proj1 (Forall_forall _ _) Hfail c Hc). }
    destruct (first_failure_Some w k c' Hfail) as (Hk & Hne & _).
    destruct (main_abort w st k c' Hfail) as (st' & Hrun & Hrep & Hsp).
    exists k, c'. unfold outcome, report_after.
    assert (Hby : spawned_by (main w) st = shell_text <$> take (S k) setup_commands).
    { apply spawned_by_eq. by rewrite Hrun. }
    rewrite Hby, Hrun. repeat split; try done.
    rewrite fmap_take.
    exact (sublist_NoDup _ _ setup_commands_distinct (sublist_take _ _)).
  - intros c st1. unfold outcome. by rewrite subprocess_run_unchecked.
  - intros i s st1 Hs.
    destruct (extract_snp_run w s st1 (snps_lookup_temp i s Hs))
      as (st' & Hrun & Hrep & Hsp).
    unfold outcome, report_after. rewrite (spawned_by_eq _ _ _ ltac:(by rewrite Hrun)).
    rewrite Hrun. split; [done|]. split; [done|].
    exists (snp_row w s). split; [exact Hrep|].
    by destruct (snp_row_shape w s) as (ref & alt & g & info & ->).
  - intros st0. apply main_steps.
  - intros Hall.
    assert (Hok : first_failure w = None).
    { apply first_failure_None, Forall_forall. exact Hall. }
    destruct (steps_1_to_7_run w st Hok) as (st' & Hrun & Hrep & Hsp).
    assert (Hby : spawned_by (steps_1_to_7 w) st
      = (shell_text <$> setup_commands) ++
        concat ((fun s => [shell_text (bcftools_cmd (position s));
                           shell_text (grep_cmd (temp_file_of (id s)))]) <$> snps)).
    { apply spawned_by_eq. by rewrite Hrun. }
    rewrite Hby. unfold outcome, report_after. rewrite Hrun. cbn [fst snd].
    repeat split; try done.
    + eexists. split; [exact Hrep|].
      rewrite <- !list_fmap_compose. apply list_fmap_ext. intros _ s _. simpl.
      destruct (snp_row_shape w s) as (ref & alt & g & info & ->). reflexivity.
    + compute_done.
Qed.

Lemma C7_witness :
  (annotate ∈ setup_commands
   ∧ exit_status failing_annotation annotate ≠ 0%Z
   ∧ outcome (main failing_annotation) initial
     = Raise (CalledProcessError 1
         (py "java -jar /Users/matthewkinder/snpEff/snpEff.jar -v GRCh38.99 CYP1A2_variants.vcf.gz > CYP1A2_annotated.vcf")))
  ∧ ((∀ c, c ∈ setup_commands -> exit_status failing_queries c = 0%Z)
     ∧ exit_status failing_queries (bcftools_cmd (py "chr15:74749576")) = 1%Z
     ∧ snd (sh failing_queries (grep_cmd (temp_file_of (py "rs762551")))
              {[temp_bcftools_output := []]}) = 1%Z
     ∧ outcome (steps_1_to_7 failing_queries) initial = Ok ()).
Proof.
  assert (H1 : annotate ∈ setup_commands) by compute_done.
  assert (H2 : exit_status failing_annotation annotate ≠ 0%Z) by compute_done.
  assert (H3 : ∀ c, c ∈ setup_commands -> exit_status failing_queries c = 0%Z).
  { intros c Hc. unfold exit_status, failing_queries.
    rewrite bool_decide_eq_true_2; [done|]. by apply list_elem_of_fmap_2. }
  split.
  - split; [exact H1|]. split; [exact H2|].
    destruct (proj1 (C7_error_policy failing_annotation initial) annotate H1 H2)
      as (k & c' & Hfail & _ & _ & Hout & _).
    rewrite Hout.
    assert (Hk : first_failure failing_annotation = Some (4, annotate))
      by (vm_compute; reflexivity).
    rewrite Hk in Hfail. injection Hfail as <- <-. vm_compute. reflexivity.
  - split; [exact H3|]. split; [vm_compute; reflexivity|].
    split; [vm_compute; reflexivity|].
    exact (proj1 (proj2 (proj2 (proj2 (proj2
             (C7_error_policy failing_queries initial)))) H3)).
Defined.

(** * Further properties *)

(** ** Stripping *)

Lemma lstrip_app l t :
  lstrip (l ++ t) = if bool_decide (lstrip l = []) then lstrip t else lstrip l ++ t.
Proof.
  induction l as [|c l IH]; [done|]. simpl.
  destruct (isspace c); [done|]. by rewrite bool_decide_eq_false_2.
Qed.

Lemma lstrip_elem x s : x ∈ lstrip s -> x ∈ s.
Proof.
  induction s as [|c s IH]; [done|]. simpl.
  destruct (isspace c); [|done]. intros H. right. by apply IH.
Qed.

Lemma lstrip_head s c : head (lstrip s) = Some c -> isspace c = false.
Proof.
  induction s as [|d s IH]; [done|]. simpl.
  destruct (isspace d) eqn:Hd; [done|]. simpl. by intros [= <-].
Qed.

Lemma lstrip_split s :
  ∃ a, s = a ++ lstrip s ∧ Forall (fun c => isspace c = true) a.
Proof.
  induction s as [|c s (a & Hs & Ha)]; [by exists []|]. simpl.
  destruct (isspace c) eqn:Hc.
  - exists (c :: a). split; [by rewrite Hs at 1|by constructor].
  - by exists [].
Qed.

Lemma strip_elem x s : x ∈ strip s -> x ∈ s.
Proof.
  unfold strip, rstrip. rewrite elem_of_reverse. intros H.
  apply lstrip_elem in H. rewrite elem_of_reverse in H. by apply lstrip_elem.
Qed.

Lemma strip_last s c : last (strip s) = Some c -> isspace c = false.
Proof.
  unfold strip, rstrip. rewrite last_reverse. apply lstrip_head.
Qed.

Lemma rstrip_split s :
  ∃ b, s = rstrip s ++ b ∧ Forall (fun c => isspace c = true) b.
Proof.
  destruct (lstrip_split (reverse s)) as (a & Hs & Ha).
  exists (reverse a). split.
  - unfold rstrip. rewrite <- reverse_app, <- Hs. by rewrite reverse_involutive.
  - by apply Forall_reverse.
Qed.

Lemma strip_head s c : head (strip s) = Some c -> isspace c = false.
Proof.
  unfold strip. destruct (rstrip_split (lstrip s)) as (b & Hs & _).
  intros H. apply (lstrip_head s). rewrite Hs.
  destruct (rstrip (lstrip s)); [done|]. exact H.
Qed.

Lemma strip_split s :
  ∃ a b, s = a ++ strip s ++ b
         ∧ Forall (fun c => isspace c = true) a
         ∧ Forall (fun c => isspace c = true) b.
Proof.
  destruct (lstrip_split s) as (a & Hs & Ha).
  destruct (rstrip_split (lstrip s)) as (b & Ht & Hb).
  exists a, b. unfold strip. by rewrite <- Ht.
Qed.

Lemma strip_snoc_space l c : isspace c = true -> strip (l ++ [c]) = strip l.
Proof.
  intros Hc. unfold strip. rewrite lstrip_app. case_bool_decide as Hl.
  - rewrite Hl. simpl. by rewrite Hc.
  - unfold rstrip. rewrite reverse_snoc. simpl. by rewrite Hc.
Qed.

(** ** Text mode and the parsed line *)

Lemma universal_newlines_no_cr s : CR ∉ universal_newlines s.
Proof.
  cut ((CR ∉ universal_newlines s) ∧ ∀ c, CR ∉ universal_newlines (c :: s));
    [by intros []|].
  induction s as [|d s [IH1 IH2]].
  - split; [apply not_elem_of_nil|]. intros c. simpl.
    destruct (N.eqb_spec c CR); apply not_elem_of_cons; split;
      try done; apply not_elem_of_nil.
  - split; [apply IH2|]. intros c. cbn [universal_newlines].
    destruct (N.eqb_spec c CR) as [->|Hc].
    + destruct (d =? LF)%N; apply not_elem_of_cons; split; try done.
      apply IH2.
    + apply not_elem_of_cons. split; [done|]. apply IH2.
Qed.

Lemma readline_split t :
  (readline t = t ∧ LF ∉ t) ∨ (∃ l rest, t = l ++ LF :: rest ∧ readline t = l ++ [LF] ∧ LF ∉ l).
Proof.
  induction t as [|c t IH]; [left; split; [done|apply not_elem_of_nil]|].
  simpl. destruct (N.eqb_spec c LF) as [->|Hc].
  - right. exists [], t. split; [done|]. split; [done|apply not_elem_of_nil].
  - destruct IH as [[Hr Hlf]|(l & rest & Ht & Hr & Hlf)].
    + left. rewrite Hr. split; [done|]. by apply not_elem_of_cons.
    + right. exists (c :: l), rest. rewrite Hr, Ht. split; [done|].
      split; [done|]. by apply not_elem_of_cons.
Qed.

Lemma readline_elem x t : x ∈ readline t -> x ∈ t.
Proof.
  induction t as [|c t IH]; [done|]. simpl.
  destruct (c =? LF)%N.
  - intros ->%list_elem_of_singleton. by left.
  - intros [->|H]%elem_of_cons; [by left|right; by apply IH].
Qed.

Lemma first_line_no_lf text : LF ∉ first_line text.
Proof.
  unfold first_line.
  destruct (readline_split (universal_newlines text))
    as [[-> Hlf]|(l & rest & _ & -> & Hlf)].
  - intros H. by apply strip_elem in H.
  - rewrite strip_snoc_space by done. intros H. by apply strip_elem in H.
Qed.

Lemma first_line_no_cr text : CR ∉ first_line text.
Proof.
  unfold first_line. intros H%strip_elem%readline_elem.
  by apply universal_newlines_no_cr in H.
Qed.

(** ** Fields and cells *)

Lemma split_fields sep s f :
  f ∈ split sep s -> (sep ∉ f) ∧ ∀ x, x ∈ f -> x ∈ s.
Proof.
  revert f. induction s as [|c s IH]; intros f; simpl.
  - intros ->%list_elem_of_singleton. split; [apply not_elem_of_nil|done].
  - destruct (N.eqb_spec c sep) as [->|Hc].
    + intros [->|Hf]%elem_of_cons.
      * split; [apply not_elem_of_nil|]. by intros x ?%elem_of_nil.
      * destruct (IH f Hf) as [H1 H2]. split; [done|]. intros x Hx. right. auto.
    + destruct (split sep s) as [|g gs] eqn:Hsplit.
      * intros ->%list_elem_of_singleton. split.
        -- apply not_elem_of_cons. split; [done|apply not_elem_of_nil].
        -- intros x ->%list_elem_of_singleton. by left.
      * intros [->|Hf]%elem_of_cons.
        -- destruct (IH g) as [H1 H2]; [by left|]. split.
           ++ apply not_elem_of_cons. by split.
           ++ intros x [->|Hx]%elem_of_cons; [by left|right; auto].
        -- destruct (IH f) as [H1 H2]; [by right|]. split; [done|].
           intros x Hx. right. auto.
Qed.

Lemma prefix_before_elem sep s x : x ∈ prefix_before sep s -> x ∈ s.
Proof.
  induction s as [|c s IH]; [done|]. simpl.
  destruct (c =? sep)%N; [by intros ?%elem_of_nil|].
  intros [->|H]%elem_of_cons; [by left|right; auto].
Qed.

Lemma parsed_field_plain text f :
  f ∈ split TAB (first_line text) -> plain f.
Proof.
  intros Hf. destruct (split_fields _ _ _ Hf) as [Htab Hsub].
  split; [done|]. split; intros H%Hsub.
  - by apply first_line_no_lf in H.
  - by apply first_line_no_cr in H.
Qed.

Lemma plain_prefix sep f : plain f -> plain (prefix_before sep f).
Proof.
  intros (H1 & H2 & H3). repeat split; intros H%prefix_before_elem; done.
Qed.

Lemma plain_label g : plain g -> plain (genotype_label g).
Proof.
  intros Hg. unfold genotype_label.
  repeat case_bool_decide; try done; repeat split; compute_done.
Qed.

Lemma nth_elem_of {A} (l : list A) i d : i < length l -> nth i l d ∈ l.
Proof.
  intros H. apply list_elem_of_lookup. exists i. by apply lookup_nth_lt.
Qed.

Lemma row_of_text_plain snp_id position text :
  plain snp_id -> plain position ->
  Forall plain (row_of_text snp_id position text).
Proof.
  intros Hid Hpos.
  assert (Hnf : plain not_found) by (repeat split; compute_done).
  destruct (decide (10 ≤ length (split TAB (first_line text)))) as [Hlen|Hlen].
  - rewrite row_of_text_found by done.
    rewrite (nth_lookup_Some _ 0 [] _ (split_first COLON _)).
    repeat (apply Forall_cons; split); try apply Forall_nil; try done;
      try (apply (parsed_field_plain text), nth_elem_of; lia).
    apply plain_prefix, (parsed_field_plain text), nth_elem_of. lia.
  - rewrite row_of_text_not_found by lia.
    repeat (apply Forall_cons; split); try apply Forall_nil; done.
Qed.

Lemma relabel_plain r : Forall plain r -> Forall plain (relabel r).
Proof.
  intros Hr. unfold relabel. destruct (r !! 4) as [g|] eqn:Hg; [|done].
  apply Forall_insert; [done|]. apply plain_label.
  by apply (proj1 (Forall_lookup _ _) Hr 4).
Qed.

Lemma snps_plain : Forall (fun s => plain (id s) ∧ plain (position s)) snps.
Proof.
  repeat (apply Forall_cons; split); try apply Forall_nil;
    repeat split; compute_done.
Qed.

Lemma genotype_label_not_code g : genotype_label g ∉ genotype_codes.
Proof.
  unfold genotype_label, genotype_codes.
  repeat case_bool_decide; try compute_done.
  intros Hin. repeat (apply elem_of_cons in Hin as [->|Hin]; [done|]).
  by apply elem_of_nil in Hin.
Qed.

Lemma genotype_label_colon g : COLON ∉ g -> COLON ∉ genotype_label g.
Proof.
  intros Hg. unfold genotype_label. repeat case_bool_decide; try done; compute_done.
Qed.

Lemma row_of_text_genotype snp_id position text g :
  row_of_text snp_id position text !! 4 = Some g -> COLON ∉ g.
Proof.
  destruct (decide (10 ≤ length (split TAB (first_line text)))) as [Hlen|Hlen].
  - rewrite row_of_text_found by done.
    rewrite (nth_lookup_Some _ 0 [] _ (split_first COLON _)).
    intros [= <-]. apply prefix_before_spec.
  - rewrite row_of_text_not_found by lia. intros [= <-]. compute_done.
Qed.

(** ** One iteration of step 7, in full *)

Lemma remove_if_exists_eq p st :
  remove_if_exists p st
  = (Ok (), State (delete p (files st)) (report st) (console st) (spawned st)).
Proof. by destruct (remove_if_exists_run p st) as (fs & -> & ->). Qed.

Local Ltac not_found_state :=
  cbv iota; rewrite report_not_found_run;
  cbn [files report console spawned]; rewrite <- ?app_assoc; cbn [app];
  rewrite ?bool_decide_eq_false_2 by (simpl; lia); reflexivity.

Lemma extract_snp_state w s st :
  temp_file_of (id s) ≠ temp_bcftools_output ->
  extract_snp w s st
  = (Ok (),
     State (files_after w s (files st))
           (Some (default [] (report st) ++ [snp_row w s]))
           (console st ++ [checking_message s; verdict_message w s])
           (spawned st ++ [shell_text (bcftools_cmd (position s));
                           shell_text (grep_cmd (temp_file_of (id s)))])).
Proof.
  intros Hne. unfold extract_snp.
  erewrite bind_ok by reflexivity.
  erewrite bind_ok by apply subprocess_run_unchecked.
  erewrite bind_ok by apply subprocess_run_unchecked.
  cbn [files report console spawned print fst snd].
  rewrite sh_query. cbn [fst].
  erewrite sh_grep; [|done|apply lookup_insert_eq]. cbn [fst].
  erewrite bind_ok by apply remove_if_exists_eq.
  cbn [files report console spawned].
  fold (temp_text w (position s)). fold (files_after w s (files st)).
  fold (checking_message s).
  assert (Htf : files_after w s (files st) !! temp_file_of (id s)
                = Some (temp_text w (position s))).
  { unfold files_after. rewrite lookup_delete_ne by done. apply lookup_insert_eq. }
  unfold os_path_getsize, get_files.
  erewrite bind_ok by (erewrite bind_ok by reflexivity; cbn [files]; rewrite Htf; reflexivity).
  unfold snp_row, row_of_text, verdict_message.
  rewrite <- !app_assoc. cbn [app].
  destruct (0 <? utf8_size (temp_text w (position s)))%N eqn:Hsize.
  2:{ apply utf8_size_empty in Hsize. rewrite Hsize.
      change (first_line []) with (@nil N). not_found_state. }
  unfold open_read, get_files.
  erewrite bind_ok by (erewrite bind_ok by reflexivity; cbn [files]; rewrite Htf; reflexivity).
  fold (first_line (temp_text w (position s))).
  case_bool_decide as Hline.
  { rewrite Hline. not_found_state. }
  case_bool_decide as Hlen.
  2:{ not_found_state. }
  set (parts := split TAB _) in *.
  erewrite bind_ok by (apply getitem_ok, (lookup_nth_lt _ _ []); lia).
  erewrite bind_ok by (apply getitem_ok, (lookup_nth_lt _ _ []), split_nonempty).
  erewrite bind_ok by (apply getitem_ok, (lookup_nth_lt _ _ []); lia).
  erewrite bind_ok by (apply getitem_ok, (lookup_nth_lt _ _ []); lia).
  erewrite bind_ok by (apply getitem_ok, (lookup_nth_lt _ _ []); lia).
  erewrite bind_ok by reflexivity.
  cbn [print csv_writerow files report console spawned snd].
  unfold print. cbn [files report console spawned].
  by rewrite <- app_assoc.
Qed.

Lemma files_after_lookup w s fs p :
  temp_file_of (id s) ≠ temp_bcftools_output ->
  files_after w s fs !! p
  = if decide (p = temp_bcftools_output) then None
    else if decide (p = temp_file_of (id s)) then Some (temp_text w (position s))
    else fs !! p.
Proof.
  intros Hne. unfold files_after.
  destruct (decide (p = temp_bcftools_output)) as [->|Hp1].
  { apply lookup_delete_eq. }
  rewrite lookup_delete_ne by done.
  destruct (decide (p = temp_file_of (id s))) as [->|Hp2].
  { apply lookup_insert_eq. }
  by rewrite !lookup_insert_ne.
Qed.

(** ** Cleaning up *)

Lemma remove_loop_eq {A} (f : A -> list N) (l : list A) st :
  for_each l (fun x => remove_if_exists (f x)) st
  = (Ok (), State (foldl (fun fs x => delete (f x) fs) (files st) l)
                  (report st) (console st) (spawned st)).
Proof.
  revert st. induction l as [|x l IH]; intros st; simpl.
  - by destruct st.
  - erewrite bind_ok by apply remove_if_exists_eq. by rewrite IH.
Qed.

Lemma remove_loop_lookup {A} (f : A -> list N) (l : list A)
    (fs : gmap (list N) (list N)) p :
  foldl (fun fs x => delete (f x) fs) fs l !! p
  = if decide (p ∈ f <$> l) then None else fs !! p.
Proof.
  revert fs. induction l as [|x l IH]; intros fs.
  - cbn [foldl]. case_decide as H; [|done]. by apply elem_of_nil in H.
  - cbn [foldl]. rewrite IH, fmap_cons.
    destruct (decide (p ∈ f <$> l)) as [Hin|Hin];
      destruct (decide (p ∈ f x :: (f <$> l))) as [Hin'|Hin']; try done.
    + exfalso. apply Hin'. by right.
    + apply elem_of_cons in Hin' as [->|?]; [|done]. apply lookup_delete_eq.
    + apply lookup_delete_ne. intros <-. apply Hin'. by left.
Qed.

Lemma cleanup_eq st :
  cleanup st
  = (Ok (), State (delete temp_bcftools_output
                     (foldl (fun fs s => delete (temp_file_of (id s)) fs) (files st) snps))
                  (report st) (console st) (spawned st)).
Proof.
  unfold cleanup. erewrite bind_ok by apply remove_loop_eq.
  by rewrite remove_if_exists_eq.
Qed.

Lemma cleanup_lookup st p :
  files (snd (cleanup st)) !! p
  = if decide (p ∈ temp_files) then None else files st !! p.
Proof.
  rewrite cleanup_eq. cbn [snd files]. unfold temp_files.
  destruct (decide (p = temp_bcftools_output)) as [->|Hp].
  - rewrite decide_True by (by left). apply lookup_delete_eq.
  - rewrite lookup_delete_ne by done.
    rewrite (remove_loop_lookup (temp_file_of ∘ id)).
    destruct (decide (p ∈ temp_file_of ∘ id <$> snps)) as [Hin|Hin].
    + rewrite decide_True; [done|by right].
    + rewrite decide_False; [done|]. by intros [?|?]%elem_of_cons.
Qed.

Lemma main_files w st :
  first_failure w = None ->
  ∃ st2, files (snd (main w st)) = files (snd (cleanup st2)).
Proof.
  intros Hok. unfold main.
  destruct (setup_spec w st) as (Hout & _ & _). rewrite Hok in Hout.
  destruct (setup w st) as [r st1] eqn:Hsetup. cbn [fst snd] in Hout. subst r.
  erewrite bind_ok by exact Hsetup.
  do 3 (erewrite bind_ok by reflexivity).
  match goal with
  | |- context [(for_each snps (extract_snp w) ≫= _) ?s] =>
      destruct (extract_loop_run w snps s [header] snps_temp_files eq_refl)
        as (st2 & Hloop & Hrep2 & _)
  end.
  erewrite bind_ok by exact Hloop.
  exists st2. rewrite cleanup_eq.
  erewrite bind_ok by apply cleanup_eq.
  erewrite bind_ok by reflexivity.
  erewrite bind_ok by (apply convert_genotypes_run; exact Hrep2).
  reflexivity.
Qed.

(** * Further properties of the script *)

(** X1. [run_command] raises [CalledProcessError] when the command ends
    with a non-zero status; otherwise it returns the command's output read
    in text mode, cut down to what lies between the white space at its two
    ends: the value neither starts nor ends with white space and holds no
    carriage return.  Either way the command was run once. *)
Theorem run_command_result (w : world) (command : list N) (st : state)
    (code : Z) (out : list N) :
  w command = (code, out) ->
  spawned_by (run_command w command) st = [command]
  ∧ if (code =? 0)%Z then
      ∃ r a b,
        outcome (run_command w command) st = Ok r
        ∧ universal_newlines out = a ++ r ++ b
        ∧ Forall (fun c => isspace c = true) a
        ∧ Forall (fun c => isspace c = true) b
        ∧ (∀ c, head r = Some c -> isspace c = false)
        ∧ (∀ c, last r = Some c -> isspace c = false)
        ∧ CR ∉ r
    else outcome (run_command w command) st
         = Raise (CalledProcessError code command).
Proof.
  intros Hw. split.
  - apply spawned_by_eq. unfold run_command. rewrite Hw.
    by destruct (code =? 0)%Z.
  - unfold outcome, run_command. rewrite Hw.
    destruct (code =? 0)%Z; [|done]. cbn [negb fst].
    destruct (strip_split (universal_newlines out)) as (a & b & Hsplit & Ha & Hb).
    exists (strip (universal_newlines out)), a, b.
    repeat split; try done.
    + apply strip_head.
    + apply strip_last.
    + intros H%strip_elem. by apply universal_newlines_no_cr in H.
Qed.

Lemma run_command_result_witness :
  padded (py "samtools --version") = (0%Z, py "  samtools 1.19 " ++ [TAB; CR; LF])
  ∧ outcome (run_command padded (py "samtools --version")) initial
    = Ok (py "samtools 1.19")
  ∧ spawned_by (run_command padded (py "samtools --version")) initial
    = [py "samtools --version"].
Proof.
  assert (H : padded (py "samtools --version")
              = (0%Z, py "  samtools 1.19 " ++ [TAB; CR; LF])) by reflexivity.
  split; [exact H|]. split; [vm_compute; reflexivity|].
  exact (proj1 (run_command_result padded (py "samtools --version") initial _ _ H)).
Defined.

(** X2. A run that completes leaves none of its temporary files behind:
    neither the intermediate query output nor any [temp_<id>.txt], also
    when such files were there before the run. *)
Theorem temp_files_removed (w : world) (st : state) (p : list N) :
  outcome (main w) st = Ok () ->
  p ∈ temp_files ->
  files (snd (main w st)) !! p = None.
Proof.
  intros Hdone Hp. destruct (first_failure w) as [[k c]|] eqn:Hfail.
  { destruct (main_abort w st k c Hfail) as (st' & Hrun & _).
    unfold outcome in Hdone. by rewrite Hrun in Hdone. }
  destruct (main_files w st Hfail) as (st2 & ->).
  rewrite cleanup_lookup. by rewrite decide_True.
Qed.

Lemma temp_files_removed_witness :
  outcome (main one_record) stale = Ok ()
  ∧ temp_file_of (py "rs762551") ∈ temp_files
  ∧ files stale !! temp_file_of (py "rs762551") = Some (record ++ [LF])
  ∧ files (snd (main one_record stale)) !! temp_file_of (py "rs762551") = None.
Proof.
  assert (H1 : outcome (main one_record) stale = Ok ()) by (vm_compute; reflexivity).
  assert (H2 : temp_file_of (py "rs762551") ∈ temp_files) by compute_done.
  split; [exact H1|]. split; [exact H2|]. split; [vm_compute; reflexivity|].
  exact (temp_files_removed one_record stale _ H1 H2).
Defined.

(** X3. What was in the working directory before does not reach the
    report: if the run completes from one starting state it completes
    from any other, with the same report. *)
Theorem report_ignores_earlier_run (w : world) (st st' : state) :
  outcome (main w) st = Ok () ->
  outcome (main w) st' = Ok ()
  ∧ report_after (main w) st' = report_after (main w) st.
Proof.
  intros Hdone. destruct (first_failure w) as [[k c]|] eqn:Hfail.
  { destruct (main_abort w st k c Hfail) as (st1 & Hrun & _).
    unfold outcome in Hdone. by rewrite Hrun in Hdone. }
  destruct (main_run w st Hfail) as (st1 & Hrun & Hrep & _).
  destruct (main_run w st' Hfail) as (st1' & Hrun' & Hrep' & _).
  unfold outcome, report_after. rewrite Hrun, Hrun'. cbn [fst snd].
  by rewrite Hrep, Hrep'.
Qed.

Lemma report_ignores_earlier_run_witness :
  outcome (main one_record) initial = Ok ()
  ∧ report stale ≠ report initial
  ∧ outcome (main one_record) stale = Ok ()
  ∧ report_after (main one_record) stale = report_after (main one_record) initial.
Proof.
  assert (H : outcome (main one_record) initial = Ok ()) by (vm_compute; reflexivity).
  split; [exact H|]. split; [discriminate|].
  exact (report_ignores_earlier_run one_record initial stale H).
Defined.

Lemma final_report w st :
  outcome (main w) st = Ok () ->
  report_after (main w) st = Some (header :: (relabel <$> (snp_row w <$> snps))).
Proof.
  intros Hdone. destruct (first_failure w) as [[k c]|] eqn:Hfail.
  { destruct (main_abort w st k c Hfail) as (st1 & Hrun & _).
    unfold outcome in Hdone. by rewrite Hrun in Hdone. }
  destruct (main_run w st Hfail) as (st1 & Hrun & Hrep & _).
  unfold report_after. by rewrite Hrun.
Qed.

(** X4. Every row of the report of a completed run, the header
    included, has six columns. *)
Theorem report_rows_six_columns (w : world) (st : state) :
  outcome (main w) st = Ok () ->
  ∃ rows, report_after (main w) st = Some rows
          ∧ Forall (fun r => length r = 6) rows.
Proof.
  intros Hdone. eexists. split; [by apply final_report|].
  constructor; [done|]. rewrite <- list_fmap_compose.
  apply Forall_fmap, Forall_forall. intros s _. simpl.
  rewrite relabel_length.
  by destruct (snp_row_shape w s) as (ref & alt & g & info & ->).
Qed.

Lemma report_rows_six_columns_witness :
  outcome (main short_record) initial = Ok ()
  ∧ ∃ rows, report_after (main short_record) initial = Some rows
            ∧ Forall (fun r => length r = 6) rows.
Proof.
  assert (H : outcome (main short_record) initial = Ok ()) by (vm_compute; reflexivity).
  split; [exact H|]. exact (report_rows_six_columns short_record initial H).
Defined.

(** X5. No cell of the report of a completed run holds a tab, a line
    feed or a carriage return, whatever the tools printed. *)
Theorem report_cells_plain (w : world) (st : state) :
  outcome (main w) st = Ok () ->
  ∃ rows, report_after (main w) st = Some rows
          ∧ Forall (Forall plain) rows.
Proof.
  intros Hdone. eexists. split; [by apply final_report|].
  constructor.
  { repeat (apply Forall_cons; split); try apply Forall_nil; repeat split;
      compute_done. }
  rewrite <- list_fmap_compose. apply Forall_fmap.
  eapply Forall_impl; [apply snps_plain|]. intros s [Hid Hpos]. simpl.
  by apply relabel_plain, row_of_text_plain.
Qed.

Lemma report_cells_plain_witness :
  outcome (main two_records) initial = Ok ()
  ∧ ∃ rows, report_after (main two_records) initial = Some rows
            ∧ Forall (Forall plain) rows.
Proof.
  assert (H : outcome (main two_records) initial = Ok ()) by (vm_compute; reflexivity).
  split; [exact H|]. exact (report_cells_plain two_records initial H).
Defined.

(** X6. After the genotype pass no data row shows a raw genotype code:
    wherever a row has a fifth column, it is not ["0/0"], ["0/1"] or
    ["1/1"]. *)
Theorem pass_leaves_no_code (st : state) (h : list (list N))
    (rows : list (list (list N))) :
  report st = Some (h :: rows) ->
  ∃ rows', report_after convert_genotypes st = Some (h :: rows')
           ∧ ∀ r g, r ∈ rows' -> r !! 4 = Some g -> g ∉ genotype_codes.
Proof.
  intros Hrep. exists (relabel <$> rows). split.
  - unfold report_after. by erewrite convert_genotypes_run.
  - intros r g (r0 & -> & _)%list_elem_of_fmap. unfold relabel.
    destruct (r0 !! 4) as [g0|] eqn:Hg0.
    + rewrite list_lookup_insert_eq by (by eapply lookup_lt_Some).
      intros [= <-]. apply genotype_label_not_code.
    + by rewrite Hg0.
Qed.

Lemma pass_leaves_no_code_witness :
  report (with_report sample_report) = Some (header :: tail sample_report)
  ∧ ∃ rows', report_after convert_genotypes (with_report sample_report)
             = Some (header :: rows')
             ∧ ∀ r g, r ∈ rows' -> r !! 4 = Some g -> g ∉ genotype_codes.
Proof.
  split; [reflexivity|].
  exact (pass_leaves_no_code (with_report sample_report) header (tail sample_report)
           eq_refl).
Defined.

(** X7. In the report of a completed run the Genotype of every data row
    is free of [':'] and is not a raw code: it is a label, ["not found"],
    or a call the pass has no label for. *)
Theorem final_genotype_column (w : world) (st : state) :
  outcome (main w) st = Ok () ->
  ∃ rows, report_after (main w) st = Some (header :: rows)
          ∧ Forall (fun r => ∃ g, r !! 4 = Some g
                                  ∧ (COLON ∉ g) ∧ (g ∉ genotype_codes)) rows.
Proof.
  intros Hdone. eexists. split; [by apply final_report|].
  rewrite <- list_fmap_compose. apply Forall_fmap, Forall_forall.
  intros s _. simpl. unfold relabel.
  destruct (snp_row_shape w s) as (ref & alt & g & info & Hrow).
  assert (Hg : snp_row w s !! 4 = Some g) by (by rewrite Hrow).
  rewrite Hg. exists (genotype_label g). split.
  - rewrite Hrow. reflexivity.
  - split; [|apply genotype_label_not_code].
    apply genotype_label_colon. by apply (row_of_text_genotype _ _ _ _ Hg).
Qed.

Lemma final_genotype_column_witness :
  outcome (main one_record) initial = Ok ()
  ∧ ∃ rows, report_after (main one_record) initial = Some (header :: rows)
            ∧ Forall (fun r => ∃ g, r !! 4 = Some g
                                    ∧ (COLON ∉ g) ∧ (g ∉ genotype_codes)) rows.
Proof.
  assert (H : outcome (main one_record) initial = Ok ()) by (vm_compute; reflexivity).
  split; [exact H|]. exact (final_genotype_column one_record initial H).
Defined.

(** X8. The genotype pass needs a header row: on a report file with no
    row at all it raises [StopIteration], on a missing file
    [FileNotFoundError], in both cases before it opens the file for
    writing, so that the machine is left as it was. *)
Theorem pass_without_header (st : state) :
  report st = None ∨ report st = Some [] ->
  convert_genotypes st
  = (Raise (match report st with
            | None => FileNotFoundError (py "snp_report.csv")
            | Some _ => StopIteration
            end), st).
Proof.
  intros [H|H]; rewrite H.
  - by apply convert_genotypes_missing.
  - by apply convert_genotypes_empty.
Qed.

Lemma pass_without_header_witness :
  (report (with_report []) = None ∨ report (with_report []) = Some [])
  ∧ convert_genotypes (with_report []) = (Raise StopIteration, with_report []).
Proof.
  split; [by right|].
  exact (pass_without_header (with_report []) (or_intror eq_refl)).
Defined.

(** X9. In one iteration of step 7 the verdict printed and the row
    written agree: after the "Checking" line, either "Found" is printed
    and the row holds the parsed fields, or "No variant found" is printed
    and the row is the not-found row; the first happens exactly when the
    parsed line has at least 10 fields. *)
Theorem iteration_message_matches_row (w : world) (s : snp) (st : state) :
  temp_file_of (id s) ≠ temp_bcftools_output ->
  ∃ message written,
    console (snd (extract_snp w s st)) = console st ++ [checking_message s; message]
    ∧ report_after (extract_snp w s) st = Some (default [] (report st) ++ [written])
    ∧ ((10 ≤ length (split TAB (first_line (temp_text w (position s))))
        ∧ message = found_message (id s)
        ∧ ∃ ref alt genotype info,
            written = [id s; position s; ref; alt; genotype; info]
            ∧ split TAB (first_line (temp_text w (position s))) !! 3 = Some ref
            ∧ split TAB (first_line (temp_text w (position s))) !! 4 = Some alt
            ∧ split TAB (first_line (temp_text w (position s))) !! 7 = Some info)
       ∨ (length (split TAB (first_line (temp_text w (position s)))) < 10
          ∧ message = no_variant_message (id s)
          ∧ written = not_found_row (id s) (position s))).
Proof.
  intros Hne. exists (verdict_message w s), (snp_row w s).
  unfold report_after. rewrite extract_snp_state by done. cbn [snd console report].
  split; [done|]. split; [done|].
  unfold verdict_message, snp_row. case_bool_decide as Hlen.
  - left. split; [done|]. split; [done|].
    rewrite row_of_text_found by done.
    eexists _, _, _, _. split; [reflexivity|].
    repeat split; apply lookup_nth_lt; lia.
  - right. split; [lia|]. split; [done|]. apply row_of_text_not_found. lia.
Qed.

Lemma iteration_message_matches_row_witness :
  temp_file_of (py "rs762551") ≠ temp_bcftools_output
  ∧ console (snd (extract_snp one_record
                    (Snp (py "rs762551") (py "CYP1A2*1F") (py "chr15:74749576"))
                    initial))
    = [py "Checking rs762551 (CYP1A2*1F) at position chr15:74749576...";
       py "  Found rs762551 variant"]
  ∧ console (snd (extract_snp one_record
                    (Snp (py "rs2472300") (py "") (py "chr15:74749234")) initial))
    = [py "Checking rs2472300 at position chr15:74749234...";
       py "  No variant found at rs2472300 position"]
  ∧ ∃ message written,
      console (snd (extract_snp one_record
                      (Snp (py "rs762551") (py "CYP1A2*1F") (py "chr15:74749576"))
                      initial))
      = [checking_message (Snp (py "rs762551") (py "CYP1A2*1F") (py "chr15:74749576"));
         message]
      ∧ report_after (extract_snp one_record
                        (Snp (py "rs762551") (py "CYP1A2*1F") (py "chr15:74749576")))
          initial = Some [written].
Proof.
  assert (H : temp_file_of (py "rs762551") ≠ temp_bcftools_output) by compute_done.
  split; [exact H|]. split; [vm_compute; reflexivity|].
  split; [vm_compute; reflexivity|].
  destruct (iteration_message_matches_row one_record
              (Snp (py "rs762551") (py "CYP1A2*1F") (py "chr15:74749576")) initial H)
    as (message & written & Hcon & Hrep & _).
  exists message, written. split; [exact Hcon|exact Hrep].
Defined.

(** X10. One iteration of step 7 changes two files only: the
    intermediate query output is gone when it ends, the SNP's temporary
    file holds what [grep] kept of the query output, and every other
    file of the working directory is as it was. *)
Theorem iteration_files (w : world) (s : snp) (st : state) (p : list N) :
  temp_file_of (id s) ≠ temp_bcftools_output ->
  files (snd (extract_snp w s st)) !! p
  = if decide (p = temp_bcftools_output) then None
    else if decide (p = temp_file_of (id s))
         then Some (fst (grep_v_comment (snd (w (shell_text (bcftools_cmd (position s)))))))
         else files st !! p.
Proof.
  intros Hne. rewrite extract_snp_state by done. cbn [snd files].
  by apply files_after_lookup.
Qed.

Lemma iteration_files_witness :
  temp_file_of (py "rs762551") ≠ temp_bcftools_output
  ∧ files (snd (extract_snp one_record
                  (Snp (py "rs762551") (py "CYP1A2*1F") (py "chr15:74749576")) stale))
    !! py "notes.txt" = Some (py "keep")
  ∧ files (snd (extract_snp one_record
                  (Snp (py "rs762551") (py "CYP1A2*1F") (py "chr15:74749576")) stale))
    !! temp_bcftools_output = None.
Proof.
  assert (H : temp_file_of (py "rs762551") ≠ temp_bcftools_output) by compute_done.
  split; [exact H|]. split.
  - rewrite (iteration_files one_record
               (Snp (py "rs762551") (py "CYP1A2*1F") (py "chr15:74749576")) stale
               (py "notes.txt") H).
    vm_compute. reflexivity.
  - rewrite (iteration_files one_record
               (Snp (py "rs762551") (py "CYP1A2*1F") (py "chr15:74749576")) stale
               temp_bcftools_output H).
    vm_compute. reflexivity.
Defined.

(** X12. The line the script parses never holds a line feed or a
    carriage return and neither starts nor ends with white space; it is
    what is left of the first line of the file once the white space at its
    two ends is taken away. *)
Theorem parsed_line_trimmed (text : list N) :
  (LF ∉ first_line text)
  ∧ (CR ∉ first_line text)
  ∧ (∀ c, head (first_line text) = Some c -> isspace c = false)
  ∧ (∀ c, last (first_line text) = Some c -> isspace c = false)
  ∧ ∃ a b, readline (universal_newlines text) = a ++ first_line text ++ b
           ∧ Forall (fun c => isspace c = true) a
           ∧ Forall (fun c => isspace c = true) b.
Proof.
  split; [apply first_line_no_lf|]. split; [apply first_line_no_cr|].
  split; [apply strip_head|]. split; [apply strip_last|].
  apply strip_split.
Qed.

Lemma parsed_line_trimmed_witness :
  first_line ([TAB] ++ py " x" ++ [TAB] ++ py "y  " ++ [CR; LF] ++ py "z")
  = py "x" ++ [TAB] ++ py "y"
  ∧ LF ∉ first_line ([TAB] ++ py " x" ++ [TAB] ++ py "y  " ++ [CR; LF] ++ py "z").
Proof.
  split; [vm_compute; reflexivity|].
  exact (proj1 (parsed_line_trimmed
                  ([TAB] ++ py " x" ++ [TAB] ++ py "y  " ++ [CR; LF] ++ py "z"))).
Defined.

Lemma tab_join_cons f fs :
  tab_join (f :: fs) = f ++ concat ((fun x => TAB :: x) <$> fs).
Proof. reflexivity. Qed.

Lemma tab_join_split s : tab_join (split TAB s) = s.
Proof.
  induction s as [|c s IH]; [done|]. cbn [split].
  destruct (N.eqb_spec c TAB) as [->|Hc].
  - destruct (split TAB s) as [|f fs] eqn:Hs.
    + by pose proof (split_nonempty TAB s) as Hlen; rewrite Hs in Hlen; simpl in Hlen; lia.
    + rewrite tab_join_cons. cbn [fmap list_fmap concat app].
      rewrite <- tab_join_cons. by rewrite IH.
  - destruct (split TAB s) as [|f fs] eqn:Hs.
    + by pose proof (split_nonempty TAB s) as Hlen; rewrite Hs in Hlen; simpl in Hlen; lia.
    + rewrite tab_join_cons in *. cbn [app]. by rewrite IH.
Qed.

(** X13. The fields the script indexes are exactly the pieces of the
    parsed line between its tabs: joined by tabs they give the line back,
    none of them holds a tab, and there is one more of them than there
    are tabs in the line. *)
Theorem fields_are_the_line (text : list N) :
  tab_join (split TAB (first_line text)) = first_line text
  ∧ Forall (fun f => TAB ∉ f) (split TAB (first_line text))
  ∧ length (split TAB (first_line text))
    = S (length (filter (fun c => c = TAB) (first_line text))).
Proof.
  split; [apply tab_join_split|]. split; [|apply length_split].
  apply Forall_forall. intros f Hf. by apply (split_fields _ _ _ Hf).
Qed.

(** X14. When the first line that [grep] leaves neither starts nor
    ends with white space, holds no carriage return and has at least 10
    tab-separated fields, the row written is made of the fields of that
    very line: nothing is lost to stripping. *)
Theorem clean_line_row (w : world) (s : snp) (st : state)
    (c d : N) (l rest : list N) :
  temp_file_of (id s) ≠ temp_bcftools_output ->
  isspace c = false -> isspace d = false ->
  LF ∉ l -> CR ∉ l ->
  temp_text w (position s) = (c :: l ++ [d]) ++ LF :: rest ->
  10 ≤ length (split TAB (c :: l ++ [d])) ->
  ∃ ref alt info sample,
    split TAB (c :: l ++ [d]) !! 3 = Some ref
    ∧ split TAB (c :: l ++ [d]) !! 4 = Some alt
    ∧ split TAB (c :: l ++ [d]) !! 7 = Some info
    ∧ split TAB (c :: l ++ [d]) !! 9 = Some sample
    ∧ report_after (extract_snp w s) st
      = Some (default [] (report st) ++
              [[id s; position s; ref; alt; prefix_before COLON sample; info]]).
Proof.
  intros Hne Hc Hd Hlf Hcr Htext Hlen.
  assert (Hline : first_line (temp_text w (position s)) = c :: l ++ [d]).
  { rewrite Htext. by apply first_line_clean. }
  set (parts := split TAB (c :: l ++ [d])) in *.
  exists (nth 3 parts []), (nth 4 parts []), (nth 7 parts []), (nth 9 parts []).
  repeat split; try (apply lookup_nth_lt; lia).
  rewrite (proj2 (extract_snp_row w s st Hne)). do 3 f_equal.
  unfold snp_row. rewrite row_of_text_found by (by rewrite Hline).
  rewrite Hline. fold parts.
  by rewrite (nth_lookup_Some _ 0 [] _ (split_first COLON _)).
Qed.

(** The record of [one_record] starts with ['c'] (99) and ends with
    ['0'] (48). *)
Lemma clean_line_row_witness :
  temp_file_of (py "rs762551") ≠ temp_bcftools_output
  ∧ isspace 99 = false ∧ isspace 48 = false
  ∧ temp_text one_record (py "chr15:74749576")
    = (99%N :: tab_join [py "hr15"; py "74749576"; py "."; py "A"; py "G"; py "50";
                         py "PASS"; py "ANN=xyz"; py "GT:DP"; py "0/1:3"] ++ [48%N])
      ++ LF :: []
  ∧ report_after (extract_snp one_record
                    (Snp (py "rs762551") (py "CYP1A2*1F") (py "chr15:74749576")))
      initial
    = Some [[py "rs762551"; py "chr15:74749576"; py "A"; py "G"; py "0/1";
             py "ANN=xyz"]].
Proof.
  assert (H1 : temp_file_of (py "rs762551") ≠ temp_bcftools_output) by compute_done.
  assert (H2 : isspace 99 = false) by reflexivity.
  assert (H3 : isspace 48 = false) by reflexivity.
  assert (H4 : LF ∉ tab_join [py "hr15"; py "74749576"; py "."; py "A"; py "G";
                              py "50"; py "PASS"; py "ANN=xyz"; py "GT:DP"; py "0/1:3"])
    by compute_done.
  assert (H5 : CR ∉ tab_join [py "hr15"; py "74749576"; py "."; py "A"; py "G";
                              py "50"; py "PASS"; py "ANN=xyz"; py "GT:DP"; py "0/1:3"])
    by compute_done.
  assert (H6 : temp_text one_record (py "chr15:74749576")
    = (99%N :: tab_join [py "hr15"; py "74749576"; py "."; py "A"; py "G"; py "50";
                         py "PASS"; py "ANN=xyz"; py "GT:DP"; py "0/1:3"] ++ [48%N])
      ++ LF :: []) by (vm_compute; reflexivity).
  assert (H7 : 10 ≤ length (split TAB
    (99%N :: tab_join [py "hr15"; py "74749576"; py "."; py "A"; py "G"; py "50";
                       py "PASS"; py "ANN=xyz"; py "GT:DP"; py "0/1:3"] ++ [48%N])))
    by (vm_compute; lia).
  split; [exact H1|]. split; [exact H2|]. split; [exact H3|]. split; [exact H6|].
  destruct (clean_line_row one_record
              (Snp (py "rs762551") (py "CYP1A2*1F") (py "chr15:74749576")) initial
              99%N 48%N _ [] H1 H2 H3 H4 H5 H6 H7)
    as (ref & alt & info & sample & Href & Halt & Hinfo & Hsample & Hrep).
  rewrite Hrep. vm_compute in Href, Halt, Hinfo, Hsample.
  injection Href as <-. injection Halt as <-. injection Hinfo as <-.
  injection Hsample as <-. vm_compute. reflexivity.
Defined.
